(** * ecflux: windowed eddy-covariance statistics

    A shallow embedding of the Python package [ecflux] (modules [eddy],
    [covariance], [heat], [momentum], [tke] and [flux]) together with the
    part of pandas/numpy the package relies on.

    Numeric model.  A float64 cell is an [option R]: [Some x] is the finite
    value [x] taken as an exact real, [None] is NaN (a missing value).
    Rounding and overflow are outside the model.  The two infinities are
    left out as well, except in the module [Ext], which has covariance.py
    once more over cells that may be infinite.

    Labels.  The three wind columns handed to [momentum_flux] are taken to
    be three different labels: with a repeated label pandas reads [g[col]]
    as a frame instead of a series, and the properties of [momentum_flux]
    carry that as a hypothesis.

    Time model.  A timestamp is the [Z] number of nanoseconds since the
    epoch, as in a [DatetimeIndex]; an averaging frequency is a fixed
    duration (a pandas [Tick] such as ['30T']), given as a [positive] number
    of nanoseconds. *)

From stdpp Require Import base option list strings gmap.
From Stdlib Require Import Ascii ZArith Reals Lra Lia.

(** ** Exceptions *)

Inductive exn : Type :=
  | ValueError (msg : string)
  | KeyError (keys : list string)
  | IndexError (msg : string).

Inductive result (A : Type) : Type :=
  | Ok (a : A)
  | Raise (e : exn).
Arguments Ok {A} a.
Arguments Raise {A} e.

#[global] Instance result_ret : MRet result := fun _ a => Ok a.
#[global] Instance result_bind : MBind result := fun _ _ f m =>
  match m with
  | Ok a => f a
  | Raise e => Raise e
  end.

(** ** Cells and numeric reductions (pandas [Series] of float64) *)

Definition cell : Type := option R.

Definition nan : cell := None.

Definition lift2 (f : R → R → R) (a b : cell) : cell :=
  match a, b with
  | Some x, Some y => Some (f x y)
  | _, _ => None
  end.

Definition cell_add : cell → cell → cell := lift2 Rplus.
Definition cell_sub : cell → cell → cell := lift2 Rminus.
Definition cell_mul : cell → cell → cell := lift2 Rmult.

Definition sum_R (xs : list R) : R := foldr Rplus 0%R xs.

(** The values of a series that are not NaN ([skipna=True]). *)
Definition notna (s : list cell) : list R := omap (M:=list) (fun x : cell => x) s.

(** [Series.mean()]: NaN cells are skipped; the mean of nothing is NaN. *)
Definition series_mean (s : list cell) : cell :=
  match notna s with
  | [] => nan
  | xs => Some (sum_R xs / INR (length xs))%R
  end.

(** [series - scalar] and [series * series] on series sharing one index. *)
Definition series_sub_scalar (s : list cell) (m : cell) : list cell :=
  map (fun x => cell_sub x m) s.

Definition series_mul (s t : list cell) : list cell :=
  zip_with cell_mul s t.

(** [np.var(series, ddof=1)], which numpy forwards to [Series.var]: NaN
    cells are skipped, the divisor is [count - ddof], and the result is NaN
    when [count <= ddof]. *)
Definition series_var (ddof : nat) (s : list cell) : cell :=
  let xs := notna s in
  let count := length xs in
  if decide (count ≤ ddof) then nan
  else
    let avg := (sum_R xs / INR count)%R in
    let sqr := map (fun x => ((avg - x) * (avg - x))%R) xs in
    Some (sum_R sqr / INR (count - ddof))%R.

(** [np.sqrt] on a scalar: NaN below zero. *)
Definition np_sqrt (x : R) : cell :=
  if Rle_dec 0 x then Some (sqrt x) else nan.

(** ** Tables *)

(** A [DataFrame] with a [DatetimeIndex]: the column labels, and the rows
    in order, each a timestamp and its cells.  A label of [columns] with no
    entry in a row is a NaN cell. *)
Record DataFrame : Type := mkDataFrame {
  columns : list string;
  rows : list (Z * gmap string R)
}.

(** What the flux functions return: a [Series] of one value per window,
    named or not, or, when [groupby(...).apply] has no group to work on, the
    empty [DataFrame] pandas gives back instead.  An empty frame has no
    entry; [name] is then the plain attribute an assignment [obj.name = ...]
    leaves on it. *)
Inductive PandasObject : Type :=
  | mkSeries (name : option string) (data : list (Z * cell))
  | EmptyFrame (name : option string).

Definition sname (o : PandasObject) : option string :=
  match o with
  | mkSeries name _ => name
  | EmptyFrame name => name
  end.

Definition sdata (o : PandasObject) : list (Z * cell) :=
  match o with
  | mkSeries _ data => data
  | EmptyFrame _ => []
  end.

(** [obj.name = name] *)
Definition set_name (name : string) (o : PandasObject) : PandasObject :=
  match o with
  | mkSeries _ data => mkSeries (Some name) data
  | EmptyFrame _ => EmptyFrame (Some name)
  end.

Definition df_index (df : DataFrame) : list Z := map fst (rows df).

Definition row_cell (c : string) (r : Z * gmap string R) : cell := r.2 !! c.

(** [df[col]], for a label that occurs once among the columns: the column
    as a series. *)
Definition getitem (df : DataFrame) (col : string) : result (list cell) :=
  if decide (col ∈ columns df) then Ok (map (row_cell col) (rows df))
  else Raise (KeyError [col]).

(** [df[[c1, ..., cn]]]: the [KeyError] lists the absent labels in the
    order given. *)
Definition select (df : DataFrame) (cols : list string) : result DataFrame :=
  match filter (fun c => c ∉ columns df) cols with
  | [] => Ok (mkDataFrame cols (rows df))
  | missing => Raise (KeyError missing)
  end.

(** [df.dropna()]: keep the rows with no NaN in any column of the frame. *)
Definition row_complete (cols : list string) (r : Z * gmap string R) : bool :=
  forallb (fun c => bool_decide (is_Some (row_cell c r))) cols.

Definition dropna (df : DataFrame) : DataFrame :=
  mkDataFrame (columns df) (List.filter (row_complete (columns df)) (rows df)).

(** ** Time buckets: [df.groupby(pd.Grouper(freq=freq))]

    pandas defaults for a [Tick] frequency: [closed='left'], [label='left'],
    [origin='start_day'].  The bin edges run from the bucket of the smallest
    timestamp to the end of the bucket of the largest one, every bin in
    between is kept, and the groups are visited in bin order. *)

Definition day_nanos : Z := 86400000000000%Z.

Definition start_day (first : Z) : Z := (first - first `mod` day_nanos)%Z.

Definition bucket_start (origin : Z) (freq : positive) (t : Z) : Z :=
  (t - (t - origin) `mod` Z.pos freq)%Z.

Definition time_bins (freq : positive) (ax : list Z) : list Z :=
  match ax with
  | [] => []
  | t0 :: ts =>
      let first := foldr Z.min t0 ts in
      let last := foldr Z.max t0 ts in
      let origin := start_day first in
      let fresult := bucket_start origin freq first in
      let lresult := (bucket_start origin freq last + Z.pos freq)%Z in
      map (fun j : nat => (fresult + Z.of_nat j * Z.pos freq)%Z)
          (seq 0 (Z.to_nat ((lresult - fresult) `div` Z.pos freq)%Z))
  end.

Definition in_bin (freq : positive) (b : Z) (r : Z * gmap string R) : bool :=
  bool_decide (b ≤ r.1 < b + Z.pos freq)%Z.

Definition groupby (freq : positive) (df : DataFrame) : list (Z * DataFrame) :=
  map (fun b => (b, mkDataFrame (columns df) (List.filter (in_bin freq b) (rows df))))
      (time_bins freq (df_index df)).

(** [obj * k]: a series keeps its name; the result of a frame is a new
    frame, on which an attribute set by hand is not carried over. *)
Definition mul_scalar (o : PandasObject) (k : R) : PandasObject :=
  match o with
  | mkSeries name data =>
      mkSeries name (map (fun kv : Z * cell => (kv.1, cell_mul kv.2 (Some k))) data)
  | EmptyFrame _ => EmptyFrame None
  end.

(** How [apply] packs the values of the groups: an unnamed series with one
    value per group, but an empty [DataFrame] when there is no group at
    all. *)
Definition wrap_applied_output (values : list (Z * cell)) : PandasObject :=
  match values with
  | [] => EmptyFrame None
  | _ => mkSeries None values
  end.

(** [grouped.apply(f)] for an [f] that returns a scalar. *)
Definition apply (f : DataFrame → result cell) (groups : list (Z * DataFrame))
  : result PandasObject :=
  values ← mapM (fun kg : Z * DataFrame => v ← f kg.2; mret (kg.1, v)) groups;
  mret (wrap_applied_output values).

(** ** covariance.py *)

Definition compute_window_covariance (vertical_var scalar_var : string)
    (g : DataFrame) : result cell :=
  w ← getitem g vertical_var;
  c ← getitem g scalar_var;
  let w_prime := series_sub_scalar w (series_mean w) in
  let c_prime := series_sub_scalar c (series_mean c) in
  mret (series_mean (series_mul w_prime c_prime)).

Definition covariance_flux (df : DataFrame) (vertical_var scalar_var : string)
    (freq : positive) (scale_factor : R) : result PandasObject :=
  sel ← select df [vertical_var; scalar_var];
  let df := dropna sel in
  flux ← apply (compute_window_covariance vertical_var scalar_var) (groupby freq df);
  let flux := set_name (scalar_var +:+ "_flux") flux in
  mret (mul_scalar flux scale_factor).

(** ** heat.py *)

Definition sensible_heat_flux (df : DataFrame) (freq : positive)
    (var_col wind_col : string) (rho cp : R) : result PandasObject :=
  let scale_factor := (rho * cp)%R in
  covariance_flux df wind_col var_col freq scale_factor.

(** ** momentum.py *)

Definition cell_sqrt (c : cell) : cell := c ≫= np_sqrt.

Definition compute_tau_window (u_col v_col w_col : string) (rho : R)
    (g : DataFrame) : result cell :=
  u ← getitem g u_col;
  let u_prime := series_sub_scalar u (series_mean u) in
  v ← getitem g v_col;
  let v_prime := series_sub_scalar v (series_mean v) in
  w ← getitem g w_col;
  let w_prime := series_sub_scalar w (series_mean w) in
  let uw_cov := series_mean (series_mul u_prime w_prime) in
  let vw_cov := series_mean (series_mul v_prime w_prime) in
  let tau := cell_mul (Some rho)
               (cell_sqrt (cell_add (cell_mul uw_cov uw_cov) (cell_mul vw_cov vw_cov))) in
  mret tau.

Definition momentum_flux (df : DataFrame) (freq : positive)
    (u_col v_col w_col : string) (rho : R) : result PandasObject :=
  sel ← select df [u_col; v_col; w_col];
  let df := dropna sel in
  tau_series ← apply (compute_tau_window u_col v_col w_col rho) (groupby freq df);
  mret (set_name "tau_N_per_m2" tau_series).

(** ** tke.py and the [tke] of flux.py (the same code twice) *)

(** [range(0, stop, step)] for [stop = len(df) >= 0]. *)
Definition range0 (stop step : Z) : result (list Z) :=
  if decide (step = 0)%Z then Raise (ValueError "range() arg 3 must not be zero")
  else if decide (0 < step)%Z then
    Ok (map (fun j : nat => (Z.of_nat j * step)%Z)
            (seq 0 (Z.to_nat ((stop + step - 1) `div` step)%Z)))
  else Ok [].

Definition len (df : DataFrame) : Z := Z.of_nat (length (rows df)).

(** [df.iloc[i:j]] for [0 <= i <= j]. *)
Definition iloc (df : DataFrame) (i j : Z) : DataFrame :=
  mkDataFrame (columns df) (take (Z.to_nat (j - i)) (drop (Z.to_nat i) (rows df))).

(** [df.index[i]] for [0 <= i]. *)
Definition index_at (df : DataFrame) (i : Z) : result Z :=
  match df_index df !! Z.to_nat i with
  | Some t => Ok t
  | None => Raise (IndexError "index out of bounds")
  end.

Definition tke_value (u v w : list cell) : cell :=
  let u_prime := series_sub_scalar u (series_mean u) in
  let v_prime := series_sub_scalar v (series_mean v) in
  let w_prime := series_sub_scalar w (series_mean w) in
  cell_mul (Some 0.5%R)
    (cell_add (cell_add (series_var 1 u_prime) (series_var 1 v_prime))
              (series_var 1 w_prime)).

(** The body of the [for] loop, threading the two result lists. *)
Fixpoint tke_loop (raw_df : DataFrame) (window_size : Z) (u v w : string)
    (starts : list Z) (acc : list cell * list Z) : result (list cell * list Z) :=
  match starts with
  | [] => Ok acc
  | i :: starts' =>
      let window := iloc raw_df i (i + window_size) in
      if decide (len window < window_size)%Z then
        tke_loop raw_df window_size u v w starts' acc
      else
        wu ← getitem window u;
        wv ← getitem window v;
        ww ← getitem window w;
        let tke_val := tke_value wu wv ww in
        mid ← index_at window (window_size `div` 2);
        tke_loop raw_df window_size u v w starts' (acc.1 ++ [tke_val], acc.2 ++ [mid])
  end.

Definition tke (raw_df : DataFrame) (window_size : Z) (u v w : string)
  : result (list cell * list Z) :=
  starts ← range0 (len raw_df) window_size;
  tke_loop raw_df window_size u v w starts ([], []).

Module tke_py.
Definition tke (df : DataFrame) (window_size : Z) (u_col v_col w_col : string)
  : result (list cell * list Z) :=
  starts ← range0 (len df) window_size;
  tke_loop df window_size u_col v_col w_col starts ([], []).
End tke_py.

(** ** flux.py *)

Definition _sensible_heat_flux (df : DataFrame) (freq : positive)
    (var_col wind_col : string) (rho cp : R) : result PandasObject :=
  let scale_factor := (rho * cp)%R in
  flux ← covariance_flux df wind_col var_col freq scale_factor;
  mret (set_name "H_W_per_m2" flux).

Definition _latent_heat_flux (df : DataFrame) (freq : positive)
    (var_col wind_col : string) (rho Lv : R) : result PandasObject :=
  let scale_factor := (rho * Lv)%R in
  flux ← covariance_flux df wind_col var_col freq scale_factor;
  mret (set_name "LE_W_per_m2" flux).

Definition _momentum_flux (df : DataFrame) (freq : positive)
    (u_col v_col w_col : string) (rho : R) : result PandasObject :=
  sel ← select df [u_col; v_col; w_col];
  let df := dropna sel in
  tau_series ← apply (compute_tau_window u_col v_col w_col rho) (groupby freq df);
  mret (set_name "tau_N_per_m2" tau_series).

(** [str.upper()] on the ASCII letters; the other bytes are left alone (no
    character outside ASCII upper-cases to one of H, L, E, T, A, U). *)
Definition upper_ascii (c : ascii) : ascii :=
  let n := N_of_ascii c in
  if ((97 <=? n) && (n <=? 122))%N then ascii_of_N (n - 32) else c.

Fixpoint upper (s : string) : string :=
  match s with
  | EmptyString => EmptyString
  | String c s' => String (upper_ascii c) (upper s')
  end.

Definition ecflux (raw_df : DataFrame) (w : string) (scalar : option string)
    (flux : string) (freq : positive) (rho cp Lv : R)
    (kwargs : gmap string string) : result PandasObject :=
  let flux := upper flux in
  if decide (flux = "H") then
    match scalar with
    | None => Raise (ValueError "scalar (temperature) must be specified for sensible heat flux")
    | Some scalar => _sensible_heat_flux raw_df freq scalar w rho cp
    end
  else if decide (flux ∈ ["L"; "LE"]) then
    match scalar with
    | None => Raise (ValueError "scalar (specific humidity) must be specified for latent heat flux")
    | Some scalar => _latent_heat_flux raw_df freq scalar w rho Lv
    end
  else if decide (flux = "TAU") then
    let u_col := default "u" (kwargs !! "u") in
    let v_col := default "v" (kwargs !! "v") in
    _momentum_flux raw_df freq u_col v_col w rho
  else
    Raise (ValueError ("Unknown flux type: " +:+ flux +:+ ". Use 'H', 'L'/'LE', or 'Tau'")).

(** ** eddy.py *)

(** [df[name] = values] for a series on the frame's own index: an existing
    column is overwritten in place, a new one is appended. *)
Definition setitem (df : DataFrame) (name : string) (vals : list cell) : DataFrame :=
  mkDataFrame
    (if decide (name ∈ columns df) then columns df else columns df ++ [name])
    (zip_with (fun (r : Z * gmap string R) (v : cell) =>
                 (r.1, partial_alter (fun _ => v) name r.2))
              (rows df) vals).

Fixpoint fluctuations_loop (df : DataFrame) (cols : list string)
    (df_prime : DataFrame) : result DataFrame :=
  match cols with
  | [] => Ok df_prime
  | col :: cols' =>
      if decide (col ∉ columns df) then
        Raise (ValueError ("Column '" +:+ col +:+ "' not found in DataFrame"))
      else
        s ← getitem df col;
        fluctuations_loop df cols'
          (setitem df_prime (col +:+ "_prime") (series_sub_scalar s (series_mean s)))
  end.

(** Every column of the model is numeric, so
    [select_dtypes(include='number')] keeps them all. *)
Definition fluctuations (df : DataFrame) (cols : option (list string))
  : result DataFrame :=
  let cols := match cols with
              | None => columns df
              | Some cols => cols
              end in
  let df_prime := mkDataFrame [] (map (fun r : Z * gmap string R => (r.1, ∅)) (rows df)) in
  fluctuations_loop df cols df_prime.

(** ** covariance.py over cells that may be infinite

    float64 also has the two infinities, and [dropna] keeps them: a row
    holding an infinite value is a complete row.  [Ext] is the code of
    covariance.py once more, over cells that are a real number, an infinity
    or NaN, with the arithmetic of the infinities ([inf - inf] and
    [0 * inf] are NaN). *)

Module Ext.

Inductive xval : Type :=
  | Fin (x : R)
  | PInf
  | NInf.

(** A float64 cell: [None] is NaN. *)
Definition xcell : Type := option xval.

Definition xopp (a : xval) : xval :=
  match a with
  | Fin x => Fin (- x)
  | PInf => NInf
  | NInf => PInf
  end.

Definition xadd (a b : xval) : xcell :=
  match a, b with
  | Fin x, Fin y => Some (Fin (x + y))
  | Fin _, inf => Some inf
  | inf, Fin _ => Some inf
  | PInf, PInf => Some PInf
  | NInf, NInf => Some NInf
  | PInf, NInf | NInf, PInf => None
  end.

Definition xsub (a b : xval) : xcell :=
  match a, b with
  | Fin x, Fin y => Some (Fin (x - y))
  | _, _ => xadd a (xopp b)
  end.

(** An infinity times the finite [x]: the sign of [x] decides, and
    [0 * inf] is NaN. *)
Definition inf_times (inf : xval) (x : R) : xcell :=
  if Rlt_dec 0 x then Some inf
  else if Rlt_dec x 0 then Some (xopp inf)
  else None.

Definition xmul (a b : xval) : xcell :=
  match a, b with
  | Fin x, Fin y => Some (Fin (x * y))
  | Fin x, inf => inf_times inf x
  | inf, Fin y => inf_times inf y
  | PInf, PInf | NInf, NInf => Some PInf
  | PInf, NInf | NInf, PInf => Some NInf
  end.

(** Division by a count. *)
Definition xdiv_count (a : xval) (n : nat) : xval :=
  match a with
  | Fin x => Fin (x / INR n)
  | inf => inf
  end.

(** A NaN operand gives NaN. *)
Definition lift2 (f : xval → xval → xcell) (a b : xcell) : xcell :=
  match a, b with
  | Some x, Some y => f x y
  | _, _ => None
  end.

Definition cell_sub : xcell → xcell → xcell := lift2 xsub.
Definition cell_mul : xcell → xcell → xcell := lift2 xmul.

Definition xsum (xs : list xval) : xcell :=
  foldr (fun x acc => lift2 xadd (Some x) acc) (Some (Fin 0)) xs.

(** The values of a series that are not NaN; an infinity is not a missing
    value. *)
Definition notna (s : list xcell) : list xval := omap (M:=list) (fun x : xcell => x) s.

(** [Series.mean()], which is also what [np.mean] gives on a series. *)
Definition series_mean (s : list xcell) : xcell :=
  match notna s with
  | [] => None
  | xs => (fun t => xdiv_count t (length xs)) <$> xsum xs
  end.

Definition series_sub_scalar (s : list xcell) (m : xcell) : list xcell :=
  map (fun x => cell_sub x m) s.

Definition series_mul (s t : list xcell) : list xcell :=
  zip_with cell_mul s t.

Record DataFrame : Type := mkDataFrame {
  columns : list string;
  rows : list (Z * gmap string xval)
}.

Inductive PandasObject : Type :=
  | mkSeries (name : option string) (data : list (Z * xcell))
  | EmptyFrame (name : option string).

Definition sdata (o : PandasObject) : list (Z * xcell) :=
  match o with
  | mkSeries _ data => data
  | EmptyFrame _ => []
  end.

Definition set_name (name : string) (o : PandasObject) : PandasObject :=
  match o with
  | mkSeries _ data => mkSeries (Some name) data
  | EmptyFrame _ => EmptyFrame (Some name)
  end.

Definition df_index (df : DataFrame) : list Z := map fst (rows df).

Definition row_cell (c : string) (r : Z * gmap string xval) : xcell := r.2 !! c.

Definition getitem (df : DataFrame) (col : string) : result (list xcell) :=
  if decide (col ∈ columns df) then Ok (map (row_cell col) (rows df))
  else Raise (KeyError [col]).

Definition select (df : DataFrame) (cols : list string) : result DataFrame :=
  match filter (fun c => c ∉ columns df) cols with
  | [] => Ok (mkDataFrame cols (rows df))
  | missing => Raise (KeyError missing)
  end.

Definition row_complete (cols : list string) (r : Z * gmap string xval) : bool :=
  forallb (fun c => bool_decide (is_Some (row_cell c r))) cols.

Definition dropna (df : DataFrame) : DataFrame :=
  mkDataFrame (columns df) (List.filter (row_complete (columns df)) (rows df)).

Definition in_bin (freq : positive) (b : Z) (r : Z * gmap string xval) : bool :=
  bool_decide (b ≤ r.1 < b + Z.pos freq)%Z.

Definition groupby (freq : positive) (df : DataFrame) : list (Z * DataFrame) :=
  map (fun b => (b, mkDataFrame (columns df) (List.filter (in_bin freq b) (rows df))))
      (time_bins freq (df_index df)).

Definition mul_scalar (o : PandasObject) (k : R) : PandasObject :=
  match o with
  | mkSeries name data =>
      mkSeries name (map (fun kv : Z * xcell => (kv.1, cell_mul kv.2 (Some (Fin k)))) data)
  | EmptyFrame _ => EmptyFrame None
  end.

Definition wrap_applied_output (values : list (Z * xcell)) : PandasObject :=
  match values with
  | [] => EmptyFrame None
  | _ => mkSeries None values
  end.

Definition apply (f : DataFrame → result xcell) (groups : list (Z * DataFrame))
  : result PandasObject :=
  values ← mapM (fun kg : Z * DataFrame => v ← f kg.2; mret (kg.1, v)) groups;
  mret (wrap_applied_output values).

Definition compute_window_covariance (vertical_var scalar_var : string)
    (g : DataFrame) : result xcell :=
  w ← getitem g vertical_var;
  c ← getitem g scalar_var;
  let w_prime := series_sub_scalar w (series_mean w) in
  let c_prime := series_sub_scalar c (series_mean c) in
  mret (series_mean (series_mul w_prime c_prime)).

Definition covariance_flux (df : DataFrame) (vertical_var scalar_var : string)
    (freq : positive) (scale_factor : R) : result PandasObject :=
  sel ← select df [vertical_var; scalar_var];
  let df := dropna sel in
  flux ← apply (compute_window_covariance vertical_var scalar_var) (groupby freq df);
  let flux := set_name (scalar_var +:+ "_flux") flux in
  mret (mul_scalar flux scale_factor).

(** The rows of [df] that [covariance_flux] keeps: those in which both
    columns hold a value. *)
Definition kept (a b : string) (df : DataFrame) : list (Z * gmap string xval) :=
  List.filter (row_complete [a; b]) (rows df).

Definition mkrow (t : Z) (cs : list (string * xval)) : Z * gmap string xval :=
  (t, list_to_map cs).

(** One row, with an infinite vertical wind. *)
Definition df_inf : DataFrame :=
  mkDataFrame ["w"; "T"]
    [ mkrow 0 [("w", PInf); ("T", Fin 20)] ].

(** A finite row alone in the first bucket, and an infinite one in the
    next. *)
Definition df_fin_inf : DataFrame :=
  mkDataFrame ["w"; "T"]
    [ mkrow 0 [("w", Fin 3); ("T", Fin 20)];
      mkrow 1800000000000 [("w", NInf); ("T", Fin 21)] ].

End Ext.

(** ** Reference definitions used to state the properties *)

Definition arith_mean (xs : list R) : R := (sum_R xs / INR (length xs))%R.

(** Population covariance of paired samples about their own means
    (divisor [n]); NaN for no sample. *)
Definition pop_cov (ps : list (R * R)) : cell :=
  match ps with
  | [] => nan
  | _ =>
      let mw := arith_mean (map fst ps) in
      let mc := arith_mean (map snd ps) in
      Some (arith_mean (map (fun p : R * R => ((p.1 - mw) * (p.2 - mc))%R) ps))
  end.

Definition scaled (k : R) (c : cell) : cell :=
  match c with
  | Some x => Some (k * x)%R
  | None => nan
  end.

(** The rows of [df] in which both [a] and [b] are present, as
    [(timestamp, (a, b))]. *)
Definition pair_of (a b : string) (r : Z * gmap string R) : option (Z * (R * R)) :=
  match r.2 !! a, r.2 !! b with
  | Some x, Some y => Some (r.1, (x, y))
  | _, _ => None
  end.

Definition complete_pairs (a b : string) (df : DataFrame) : list (Z * (R * R)) :=
  omap (M:=list) (pair_of a b) (rows df).

(** The samples whose timestamp lies in the half-open bucket
    [[b, b + freq)]. *)
Definition bucket {A} (freq : positive) (b : Z) (ps : list (Z * A)) : list A :=
  map snd (List.filter (fun p : Z * A => bool_decide (b ≤ p.1 < b + Z.pos freq)%Z) ps).

(** What [covariance_flux] is meant to return for the columns [a] (vertical
    wind) and [b] (scalar): one entry per time bucket of the complete rows,
    the scaled population covariance of the bucket. *)
Definition covariance_series (a b : string) (freq : positive) (k : R)
    (df : DataFrame) : list (Z * cell) :=
  let ps := complete_pairs a b df in
  map (fun t => (t, scaled k (pop_cov (bucket freq t ps))))
      (time_bins freq (map fst ps)).

Definition mkrow (t : Z) (cs : list (string * R)) : Z * gmap string R :=
  (t, list_to_map cs).

(** The four-row scenario: one sample per second, [w = 1..4], [T = 10..13]. *)
Definition df_scenario4 : DataFrame :=
  mkDataFrame ["w"; "T"]
    [ mkrow 0 [("w", 1%R); ("T", 10%R)];
      mkrow 1000000000 [("w", 2%R); ("T", 11%R)];
      mkrow 2000000000 [("w", 3%R); ("T", 12%R)];
      mkrow 3000000000 [("w", 4%R); ("T", 13%R)] ].

(** ['30T'] in nanoseconds. *)
Definition freq_30T : positive := 1800000000000%positive.

(** Case-insensitive equality of selectors, by folding to lower case. *)
Definition lower_ascii (c : ascii) : ascii :=
  let n := N_of_ascii c in
  if ((65 <=? n) && (n <=? 90))%N then ascii_of_N (n + 32) else c.

Fixpoint lower (s : string) : string :=
  match s with
  | EmptyString => EmptyString
  | String c s' => String (lower_ascii c) (lower s')
  end.

Definition ci_eq (s t : string) : Prop := lower s = lower t.

Definition heat_selector (flux : string) : Prop :=
  ci_eq flux "H" ∨ ci_eq flux "L" ∨ ci_eq flux "LE".

Definition supported_flux (flux : string) : Prop :=
  heat_selector flux ∨ ci_eq flux "Tau".

(** The error kinds of the package; in the code all of them are a
    [ValueError], told apart by the message. *)
Definition UnsupportedFluxType (e : exn) : Prop :=
  ∃ flux, e = ValueError ("Unknown flux type: " +:+ flux +:+ ". Use 'H', 'L'/'LE', or 'Tau'").

Definition MissingArgument (e : exn) : Prop :=
  e = ValueError "scalar (temperature) must be specified for sensible heat flux"
  ∨ e = ValueError "scalar (specific humidity) must be specified for latent heat flux".

Definition UnknownColumn (e : exn) : Prop :=
  ∃ col, e = ValueError ("Column '" +:+ col +:+ "' not found in DataFrame").

(** A table with both columns and no complete row: the first row has no
    [T], the second no [w]. *)
Definition df_unpaired : DataFrame :=
  mkDataFrame ["w"; "T"]
    [ mkrow 0 [("w", 1%R)];
      mkrow 1000000000 [("T", 11%R)] ].

(** A bucket with one complete row: the second row has no [T] and is
    dropped before the means are taken. *)
Definition df_single : DataFrame :=
  mkDataFrame ["w"; "T"]
    [ mkrow 0 [("w", 3%R); ("T", 20%R)];
      mkrow 1000000000 [("w", 5%R)] ].

Definition swap_pair (p : R * R) : R * R := (p.2, p.1).

(** The rows of [df] in which [u], [v] and [w] are all present. *)
Definition triple_of (u v w : string) (r : Z * gmap string R)
  : option (Z * (R * R * R)) :=
  match r.2 !! u, r.2 !! v, r.2 !! w with
  | Some x, Some y, Some z => Some (r.1, (x, y, z))
  | _, _, _ => None
  end.

Definition complete_triples (u v w : string) (df : DataFrame)
  : list (Z * (R * R * R)) :=
  omap (M:=list) (triple_of u v w) (rows df).

Definition uw_of (s : R * R * R) : R * R := (s.1.1, s.2).
Definition vw_of (s : R * R * R) : R * R := (s.1.2, s.2).

(** [rho * sqrt(cov_uw^2 + cov_vw^2)] with population covariances; NaN for
    no sample. *)
Definition tau_of (rho : R) (ss : list (R * R * R)) : cell :=
  match pop_cov (map uw_of ss), pop_cov (map vw_of ss) with
  | Some cov_uw, Some cov_vw =>
      Some (rho * sqrt (cov_uw * cov_uw + cov_vw * cov_vw))%R
  | _, _ => nan
  end.

(** The momentum scenario: [u = [1, -1]], [v = [0, 0]], [w = [1, -1]], which
    are their own fluctuations. *)
Definition df_tau : DataFrame :=
  mkDataFrame ["u"; "v"; "w"]
    [ mkrow 0 [("u", 1%R); ("v", 0%R); ("w", 1%R)];
      mkrow 1000000000 [("u", (-1)%R); ("v", 0%R); ("w", (-1)%R)] ].

(** What [momentum_flux] is meant to return. *)
Definition tau_series (u v w : string) (freq : positive) (rho : R)
    (df : DataFrame) : list (Z * cell) :=
  let ss := complete_triples u v w df in
  map (fun t => (t, tau_of rho (bucket freq t ss))) (time_bins freq (map fst ss)).

(** Fixed-count windows: the [j]-th stride of [k] rows, and the strides that
    are full. *)
Definition window_rows {X} (k j : nat) (rs : list X) : list X :=
  take k (drop (j * k) rs).

Definition full (k N j : nat) : bool := bool_decide (j * k + k ≤ N).

Definition column (c : string) (rs : list (Z * gmap string R)) : list cell :=
  map (row_cell c) rs.

(** Fluctuations about the mean, and the Bessel-corrected sample variance
    (divisor [n - 1]), undefined (NaN) for fewer than two values. *)
Definition fluct (xs : list R) : list R :=
  map (fun x => (x - arith_mean xs)%R) xs.

Definition sample_var (xs : list R) : cell :=
  if decide (length xs ≤ 1) then nan
  else
    Some (sum_R (map (fun x => ((x - arith_mean xs) * (x - arith_mean xs))%R) xs)
          / INR (length xs - 1))%R.

Definition half_sum3 (a b c : cell) : cell :=
  match a, b, c with
  | Some x, Some y, Some z => Some (0.5 * (x + y + z))%R
  | _, _, _ => nan
  end.

(** TKE of one window, over the values present in each column. *)
Definition window_tke (u v w : string) (win : list (Z * gmap string R)) : cell :=
  half_sum3 (sample_var (fluct (notna (column u win))))
            (sample_var (fluct (notna (column v win))))
            (sample_var (fluct (notna (column w win)))).

(** The value the loop body of [tke] computes from the rows of a window. *)
Definition tke_of_window (u v w : string) (win : list (Z * gmap string R)) : cell :=
  tke_value (column u win) (column v win) (column w win).

(** The TKE scenario: six samples, one per second; with [window_size = 4]
    the first four rows form the only full window, where [u] is constant. *)
Definition df_tke : DataFrame :=
  mkDataFrame ["u"; "v"; "w"]
    [ mkrow 0 [("u", 1%R); ("v", 1%R); ("w", 2%R)];
      mkrow 1000000000 [("u", 1%R); ("v", 2%R); ("w", 4%R)];
      mkrow 2000000000 [("u", 1%R); ("v", 3%R); ("w", 6%R)];
      mkrow 3000000000 [("u", 1%R); ("v", 4%R); ("w", 8%R)];
      mkrow 4000000000 [("u", 7%R); ("v", 0%R); ("w", 0%R)];
      mkrow 5000000000 [("u", 9%R); ("v", 0%R); ("w", 0%R)] ].

(** The fluctuation of a cell of the series [s]: the value minus the
    arithmetic mean of the values present in [s]; a missing cell stays
    missing. *)
Definition fluctuation_of (s : list cell) (x : cell) : cell :=
  match x with
  | Some v => Some (v - arith_mean (notna s))%R
  | None => nan
  end.

(** The series the loop of [fluctuations] assigns for column [c]. *)
Definition fluctuation_series (df : DataFrame) (c : string) : list cell :=
  series_sub_scalar (column c (rows df)) (series_mean (column c (rows df))).

(** One successful iteration of the loop of [fluctuations]. *)
Definition fluctuations_step (df acc : DataFrame) (c : string) : DataFrame :=
  setitem acc (c +:+ "_prime") (fluctuation_series df c).

Definition empty_frame (df : DataFrame) : DataFrame :=
  mkDataFrame [] (map (fun r : Z * gmap string R => (r.1, ∅)) (rows df)).

(** A table whose first row has no [w]: it lies in the bucket starting at 0,
    the only complete row in the bucket starting at 30 minutes. *)
Definition df_lead : DataFrame :=
  mkDataFrame ["w"; "T"]
    [ mkrow 0 [("T", 10%R)];
      mkrow 1800000000000 [("w", 1%R); ("T", 11%R)] ].

(** A table with a gap: one sample in the first 30-minute bucket, none in
    the second, two in the third; three rows in all. *)
Definition df_gap : DataFrame :=
  mkDataFrame ["u"; "v"; "w"]
    [ mkrow 0 [("u", 1%R); ("v", 0%R); ("w", 2%R)];
      mkrow 3600000000000 [("u", 1%R); ("v", 1%R); ("w", 1%R)];
      mkrow 3601000000000 [("u", 3%R); ("v", 2%R); ("w", 3%R)] ].

(** The first [m] rows of a table. *)
Definition head (df : DataFrame) (m : nat) : DataFrame :=
  mkDataFrame (columns df) (take m (rows df)).

(** What a flux function returns for the entries [data] it has computed: the
    series called [name] when there is an entry, and else the empty frame
    whose attribute is [attr]. *)
Definition flux_object (name : string) (attr : option string)
    (data : list (Z * cell)) : PandasObject :=
  match data with
  | [] => EmptyFrame attr
  | _ => mkSeries (Some name) data
  end.

(** [series * k] on the entries of a result series. *)
Definition scale_entries (k : R) (es : list (Z * cell)) : list (Z * cell) :=
  map (fun e : Z * cell => (e.1, scaled k e.2)) es.

(** The same object with every value multiplied by [k]: the name and the
    keys stay. *)
Definition scale_object (k : R) (o : PandasObject) : PandasObject :=
  match o with
  | mkSeries name data => mkSeries name (scale_entries k data)
  | EmptyFrame name => EmptyFrame name
  end.

Definition swap_uv (s : R * R * R) : R * R * R := (s.1.2, s.1.1, s.2).

(** A table with no [v] column. *)
Definition df_no_v : DataFrame :=
  mkDataFrame ["u"; "w"]
    [ mkrow 0 [("u", 1%R); ("w", 2%R)];
      mkrow 1000000000 [("u", 2%R); ("w", 1%R)];
      mkrow 2000000000 [("u", 3%R); ("w", 0%R)] ].

(** The name [fluctuations] gives to the fluctuation of column [c]. *)
Definition prime (c : string) : string := c +:+ "_prime".

(** * Properties *)

(** ** Lemmas on cells and series *)

Lemma notna_Some (xs : list R) : notna (map Some xs) = xs.
Proof.
  induction xs as [|x xs IH]; [reflexivity|].
  unfold notna in *. cbn. by rewrite IH.
Qed.

Lemma series_mean_Some (xs : list R) :
  series_mean (map Some xs) = match xs with [] => nan | _ => Some (arith_mean xs) end.
Proof. unfold series_mean. rewrite notna_Some. by destruct xs. Qed.

Lemma series_sub_scalar_Some (xs : list R) (m : R) :
  series_sub_scalar (map Some xs) (Some m) = map Some (map (fun x => (x - m)%R) xs).
Proof. unfold series_sub_scalar. rewrite !map_map. reflexivity. Qed.

Lemma series_mul_Some (xs ys : list R) :
  series_mul (map Some xs) (map Some ys) = map Some (zip_with Rmult xs ys).
Proof.
  unfold series_mul. revert ys.
  induction xs as [|x xs IH]; intros [|y ys]; cbn; try reflexivity.
  by rewrite IH.
Qed.

Lemma zip_with_fst_snd {A B C D} (f : A → C) (g : B → D) (h : C → D → R)
    (ps : list (A * B)) :
  zip_with h (map f (map fst ps)) (map g (map snd ps))
  = map (fun p : A * B => h (f p.1) (g p.2)) ps.
Proof. induction ps as [|[a b] ps IH]; cbn; [reflexivity|]. by rewrite IH. Qed.

(** ** Lemmas on tables *)

Lemma select_present (df : DataFrame) (cols : list string) :
  Forall (fun c => c ∈ columns df) cols →
  select df cols = Ok (mkDataFrame cols (rows df)).
Proof.
  intros H. unfold select.
  replace (filter (fun c => c ∉ columns df) cols) with (@nil string); [reflexivity|].
  symmetry. induction H as [|c cols Hc _ IH]; [reflexivity|].
  rewrite filter_cons. destruct (decide (c ∉ columns df)); [contradiction|assumption].
Qed.

Lemma getitem_present (cols : list string) (rs : list (Z * gmap string R)) (c : string) :
  c ∈ cols → getitem (mkDataFrame cols rs) c = Ok (map (row_cell c) rs).
Proof. intros H. unfold getitem. cbn. by destruct (decide (c ∈ cols)). Qed.

(** Reading the complete rows of a frame through an extraction [ext] that
    succeeds exactly on the rows [dropna] keeps and preserves timestamps. *)
Section Extraction.
Context {A : Type} (cols : list string).
Variable ext : Z * gmap string R → option (Z * A).
Hypothesis ext_complete : ∀ r, row_complete cols r = true ↔ is_Some (ext r).
Hypothesis ext_fst : ∀ r p, ext r = Some p → p.1 = r.1.

Lemma ext_incomplete r : row_complete cols r = false → ext r = None.
Proof.
  intros E. destruct (ext r) eqn:E'; [|reflexivity].
  assert (row_complete cols r = true) by (apply ext_complete; by eexists).
  congruence.
Qed.

Lemma omap_filter_complete (rs : list (Z * gmap string R)) :
  omap (M:=list) ext (List.filter (row_complete cols) rs) = omap (M:=list) ext rs.
Proof.
  induction rs as [|r rs IH]; [reflexivity|]. cbn [List.filter].
  destruct (row_complete cols r) eqn:E.
  - cbn. by rewrite IH.
  - cbn. by rewrite (ext_incomplete r E).
Qed.

Lemma omap_filter_in_bin (freq : positive) (k : Z) (rs : list (Z * gmap string R)) :
  omap (M:=list) ext (List.filter (in_bin freq k) rs)
  = List.filter (fun p : Z * A => bool_decide (k ≤ p.1 < k + Z.pos freq)%Z)
      (omap (M:=list) ext rs).
Proof.
  induction rs as [|r rs IH]; [reflexivity|]. cbn [List.filter].
  unfold in_bin at 1. cbn [omap list_omap].
  destruct (ext r) as [p|] eqn:E.
  - cbn [List.filter]. rewrite (ext_fst _ _ E).
    destruct (bool_decide (k ≤ r.1 < k + Z.pos freq)%Z); cbn; rewrite ?E, IH; reflexivity.
  - destruct (bool_decide (k ≤ r.1 < k + Z.pos freq)%Z); cbn; rewrite ?E, IH; reflexivity.
Qed.

Lemma index_complete (rs : list (Z * gmap string R)) :
  map fst (List.filter (row_complete cols) rs) = map fst (omap (M:=list) ext rs).
Proof.
  induction rs as [|r rs IH]; [reflexivity|]. cbn [List.filter].
  destruct (row_complete cols r) eqn:E.
  - apply ext_complete in E as [p E]. cbn. rewrite E. cbn.
    rewrite (ext_fst _ _ E). by rewrite IH.
  - cbn. by rewrite (ext_incomplete r E).
Qed.
End Extraction.

Lemma row_complete_pair (a b : string) (r : Z * gmap string R) :
  row_complete [a; b] r = true ↔ is_Some (pair_of a b r).
Proof.
  unfold row_complete, pair_of, row_cell. cbn.
  destruct (r.2 !! a), (r.2 !! b); cbn; split; intros H.
  all: try reflexivity; try discriminate H.
  all: by destruct H.
Qed.

Lemma pair_of_fst (a b : string) (r : Z * gmap string R) p :
  pair_of a b r = Some p → p.1 = r.1.
Proof.
  unfold pair_of. destruct (r.2 !! a), (r.2 !! b); intros [= <-]; reflexivity.
Qed.

(** The two columns of a frame whose rows are all complete. *)
Lemma columns_of_complete (a b : string) (rs : list (Z * gmap string R)) :
  Forall (fun r => row_complete [a; b] r = true) rs →
  map (row_cell a) rs = map Some (map fst (map snd (omap (M:=list) (pair_of a b) rs)))
  ∧ map (row_cell b) rs = map Some (map snd (map snd (omap (M:=list) (pair_of a b) rs))).
Proof.
  induction 1 as [|r rs Hr _ [IHa IHb]]; [by split|].
  apply row_complete_pair in Hr as [p E]. cbn. rewrite E. cbn.
  rewrite IHa, IHb. unfold pair_of, row_cell in *.
  destruct (r.2 !! a), (r.2 !! b); try discriminate.
  injection E as <-. by split.
Qed.

Lemma filter_all_complete (cols : list string) (p : Z * gmap string R → bool)
    (rs : list (Z * gmap string R)) :
  Forall (fun r => row_complete cols r = true)
         (List.filter p (List.filter (row_complete cols) rs)).
Proof.
  induction rs as [|r rs IH]; cbn; [constructor|].
  destruct (row_complete cols r) eqn:E; [|assumption].
  cbn. destruct (p r); [by constructor|assumption].
Qed.

Lemma apply_map (f : DataFrame → result cell) (G : Z → DataFrame)
    (g : Z → cell) (bins : list Z) :
  (∀ b, f (G b) = Ok (g b)) →
  apply f (map (fun b => (b, G b)) bins)
  = Ok (wrap_applied_output (map (fun b => (b, g b)) bins)).
Proof.
  intros H. unfold apply.
  assert (E : mapM (fun kg : Z * DataFrame => v ← f kg.2; mret (kg.1, v))
                   (map (fun b => (b, G b)) bins)
              = Ok (map (fun b => (b, g b)) bins)).
  { induction bins as [|b bins IH]; [reflexivity|].
    cbn. rewrite H. cbn. rewrite IH. reflexivity. }
  rewrite E. reflexivity.
Qed.

Lemma sdata_flux_object (name : string) (attr : option string)
    (data : list (Z * cell)) :
  sdata (flux_object name attr data) = data.
Proof. by destruct data. Qed.

(** ** covariance_flux *)

Lemma series_mean_Some_ne (xs : list R) :
  xs ≠ [] → series_mean (map Some xs) = Some (arith_mean xs).
Proof. intros H. rewrite series_mean_Some. by destruct xs. Qed.

Lemma covariance_of_pairs (ps : list (R * R)) :
  let w := map Some (map fst ps) in
  let c := map Some (map snd ps) in
  series_mean (series_mul (series_sub_scalar w (series_mean w))
                          (series_sub_scalar c (series_mean c)))
  = pop_cov ps.
Proof.
  destruct ps as [|p ps]; [reflexivity|]. intros w c. subst w c.
  rewrite !series_mean_Some_ne by done.
  rewrite !series_sub_scalar_Some, series_mul_Some.
  rewrite (zip_with_fst_snd _ _ Rmult (p :: ps)).
  rewrite series_mean_Some_ne by done. reflexivity.
Qed.

Lemma window_covariance_complete (a b : string) (rs : list (Z * gmap string R)) :
  Forall (fun r => row_complete [a; b] r = true) rs →
  compute_window_covariance a b (mkDataFrame [a; b] rs)
  = Ok (pop_cov (map snd (omap (M:=list) (pair_of a b) rs))).
Proof.
  intros Hc. unfold compute_window_covariance.
  rewrite !getitem_present by set_solver. cbn.
  destruct (columns_of_complete a b rs Hc) as [-> ->].
  by rewrite covariance_of_pairs.
Qed.

Lemma scaled_cell_mul (k : R) (c : cell) : cell_mul c (Some k) = scaled k c.
Proof. destruct c; cbn; [|reflexivity]. f_equal. apply Rmult_comm. Qed.

Lemma covariance_series_nil (a b : string) (freq : positive) (k : R) (df : DataFrame) :
  complete_pairs a b df = [] → covariance_series a b freq k df = [].
Proof. intros E. unfold covariance_series. by rewrite E. Qed.

Lemma mul_scalar_wrap (name : string) (k : R) (values : list (Z * cell)) :
  mul_scalar (set_name name (wrap_applied_output values)) k
  = flux_object name None
      (map (fun kv : Z * cell => (kv.1, scaled k kv.2)) values).
Proof.
  destruct values as [|v values]; [reflexivity|].
  cbn. by rewrite scaled_cell_mul, (map_ext _ _ (fun kv => f_equal (pair kv.1) (scaled_cell_mul k kv.2))).
Qed.

Lemma covariance_flux_eq
    (df : DataFrame) (vertical_var scalar_var : string) (freq : positive)
    (scale_factor : R) :
  vertical_var ∈ columns df →
  scalar_var ∈ columns df →
  covariance_flux df vertical_var scalar_var freq scale_factor
  = Ok (flux_object (scalar_var +:+ "_flux") None
          (covariance_series vertical_var scalar_var freq scale_factor df)).
Proof.
  intros Ha Hb. unfold covariance_flux.
  rewrite select_present by (repeat constructor; assumption).
  cbn [mbind result_bind]. unfold groupby, dropna, df_index. cbn [columns rows].
  rewrite (index_complete _ _ (row_complete_pair _ _) (pair_of_fst _ _)).
  erewrite apply_map; [|intros t; apply window_covariance_complete,
                                      filter_all_complete].
  cbn [mbind result_bind mret result_ret]. rewrite mul_scalar_wrap. do 2 f_equal.
  unfold covariance_series, complete_pairs, bucket.
  rewrite map_map. apply map_ext. intros t. cbn [fst snd].
  rewrite (omap_filter_in_bin _ (pair_of_fst _ _)).
  rewrite (omap_filter_complete _ _ (row_complete_pair _ _)). reflexivity.
Qed.

(** C1. The case the claim does not survive: on a table that has both
    columns but no row in which both values are present, nothing is left
    after the incomplete rows are dropped, [groupby(...).apply] gives back an
    empty frame instead of a series, and the name assigned to it does not
    outlive the multiplication by [scale_factor].  What [covariance_flux]
    returns is then an unnamed empty frame, not a series named
    ["{scalar_var}_flux"]. *)
Theorem covariance_flux_no_complete_row
    (df : DataFrame) (vertical_var scalar_var : string) (freq : positive)
    (scale_factor : R) :
  vertical_var ∈ columns df →
  scalar_var ∈ columns df →
  complete_pairs vertical_var scalar_var df = [] →
  covariance_flux df vertical_var scalar_var freq scale_factor = Ok (EmptyFrame None).
Proof.
  intros Ha Hb He. unfold covariance_flux.
  rewrite select_present by (repeat constructor; assumption).
  cbn [mbind result_bind]. unfold groupby, dropna, df_index. cbn [columns rows].
  rewrite (index_complete _ _ (row_complete_pair _ _) (pair_of_fst _ _)).
  unfold complete_pairs in He. rewrite He. reflexivity.
Qed.

(** The failing input of C1: two rows, the first without [T], the second
    without [w]. *)
Lemma covariance_flux_no_complete_row_scenario :
  "w" ∈ columns df_unpaired ∧ "T" ∈ columns df_unpaired
  ∧ complete_pairs "w" "T" df_unpaired = []
  ∧ covariance_flux df_unpaired "w" "T" freq_30T 1 = Ok (EmptyFrame None).
Proof.
  assert (Hw : "w" ∈ columns df_unpaired) by (cbn; repeat constructor).
  assert (HT : "T" ∈ columns df_unpaired) by (cbn; repeat constructor).
  assert (He : complete_pairs "w" "T" df_unpaired = []) by (vm_compute; reflexivity).
  repeat (split; [assumption|]).
  exact (covariance_flux_no_complete_row df_unpaired "w" "T" freq_30T 1 Hw HT He).
Defined.

(** ** ecflux: argument validation *)

Lemma N_of_upper_ascii (c : ascii) :
  N_of_ascii (upper_ascii c)
  = (if (97 <=? N_of_ascii c) && (N_of_ascii c <=? 122) then N_of_ascii c - 32
     else N_of_ascii c)%N.
Proof.
  unfold upper_ascii.
  destruct ((97 <=? N_of_ascii c) && (N_of_ascii c <=? 122))%N eqn:E; [|reflexivity].
  apply N_ascii_embedding. pose proof (N_ascii_bounded c). lia.
Qed.

Lemma N_of_lower_ascii (c : ascii) :
  N_of_ascii (lower_ascii c)
  = (if (65 <=? N_of_ascii c) && (N_of_ascii c <=? 90) then N_of_ascii c + 32
     else N_of_ascii c)%N.
Proof.
  unfold lower_ascii.
  destruct ((65 <=? N_of_ascii c) && (N_of_ascii c <=? 90))%N eqn:E; [|reflexivity].
  apply N_ascii_embedding. apply andb_prop in E as [_ E%N.leb_le]. lia.
Qed.

Lemma N_of_ascii_inj (a b : ascii) : N_of_ascii a = N_of_ascii b → a = b.
Proof. intros H. rewrite <- (ascii_N_embedding a), <- (ascii_N_embedding b). by rewrite H. Qed.

Lemma upper_lower_ascii (a b : ascii) :
  upper_ascii a = upper_ascii b ↔ lower_ascii a = lower_ascii b.
Proof.
  split; intros H; apply N_of_ascii_inj; apply (f_equal N_of_ascii) in H;
    rewrite ?N_of_upper_ascii, ?N_of_lower_ascii in *;
    repeat match goal with
           | H : context [ (?x <=? ?y)%N ] |- _ => destruct (N.leb_spec x y)
           | |- context [ (?x <=? ?y)%N ] => destruct (N.leb_spec x y)
           end; cbn [andb] in *; lia.
Qed.

Lemma upper_lower (s t : string) : upper s = upper t ↔ ci_eq s t.
Proof.
  unfold ci_eq. revert t.
  induction s as [|a s IH]; intros [|b t]; cbn; try (split; intros; (reflexivity || discriminate)).
  split; intros [= H1 H2]; f_equal; try (by apply upper_lower_ascii); by apply IH.
Qed.

Lemma upper_is (flux target : string) :
  upper flux = upper target ↔ ci_eq flux target.
Proof. apply upper_lower. Qed.

Lemma error_kinds_disjoint (e : exn) : UnsupportedFluxType e → ¬ MissingArgument e.
Proof. intros [f ->] [H|H]; cbn in H; discriminate H. Qed.

(** C2. A selector that is not one of H, L, LE, Tau up to letter case makes
    [ecflux] raise the unknown-flux-type error whatever the table and the
    other arguments are; a heat selector (H, L, LE) with [scalar=None] makes
    it raise the missing-argument error whatever the table is.  In both
    cases no series is returned and the table is never read. *)
Theorem ecflux_argument_errors
    (raw_df : DataFrame) (w : string) (scalar : option string) (flux : string)
    (freq : positive) (rho cp Lv : R) (kwargs : gmap string string) :
  (¬ supported_flux flux →
     ∃ e, ecflux raw_df w scalar flux freq rho cp Lv kwargs = Raise e
          ∧ UnsupportedFluxType e)
  ∧ (heat_selector flux →
     ∃ e, ecflux raw_df w None flux freq rho cp Lv kwargs = Raise e
          ∧ MissingArgument e).
Proof.
  unfold supported_flux, heat_selector, ecflux. split.
  - intros Hn. cbv zeta.
    destruct (decide (upper flux = "H")) as [E|_].
    { exfalso. apply Hn. left. left. by apply (upper_is flux "H"). }
    destruct (decide (upper flux ∈ ["L"; "LE"])) as [E|_].
    { exfalso. apply Hn. left. right.
      apply elem_of_cons in E as [E|E]; [left; by apply (upper_is flux "L")|].
      apply list_elem_of_singleton in E. right. by apply (upper_is flux "LE"). }
    destruct (decide (upper flux = "TAU")) as [E|_].
    { exfalso. apply Hn. right. by apply (upper_is flux "Tau"). }
    eexists. split; [reflexivity|]. by eexists.
  - intros Hh. cbv zeta.
    destruct (decide (upper flux = "H")) as [E|NE].
    { eexists. split; [reflexivity|]. by left. }
    destruct (decide (upper flux ∈ ["L"; "LE"])) as [E|NE'].
    { eexists. split; [reflexivity|]. by right. }
    exfalso. destruct Hh as [H|[H|H]].
    + apply NE. by apply (upper_is flux "H").
    + apply NE'. apply (upper_is flux "L") in H. cbn in H. rewrite H. repeat constructor.
    + apply NE'. apply (upper_is flux "LE") in H. cbn in H. rewrite H. repeat constructor.
Qed.

(** The scenario of C2: selector ["X"] on an empty table, and selector ["h"]
    without a scalar. *)
Lemma ecflux_argument_errors_scenario :
  (¬ supported_flux "X" ∧
   ∃ e, ecflux (mkDataFrame [] []) "w" (Some "T") "X" freq_30T 1.2 1005 2500000 ∅ = Raise e
        ∧ UnsupportedFluxType e)
  ∧ (heat_selector "h" ∧
     ∃ e, ecflux (mkDataFrame [] []) "w" None "h" freq_30T 1.2 1005 2500000 ∅ = Raise e
          ∧ MissingArgument e).
Proof.
  assert (HX : ¬ supported_flux "X").
  { unfold supported_flux, heat_selector, ci_eq.
    intros [[H|[H|H]]|H]; vm_compute in H; discriminate H. }
  assert (Hh : heat_selector "h") by (left; reflexivity).
  split.
  - split; [exact HX|].
    exact (proj1 (ecflux_argument_errors (mkDataFrame [] []) "w" (Some "T") "X"
                    freq_30T 1.2 1005 2500000 ∅) HX).
  - split; [exact Hh|].
    exact (proj2 (ecflux_argument_errors (mkDataFrame [] []) "w" None "h"
                    freq_30T 1.2 1005 2500000 ∅) Hh).
Defined.

(** ** Symmetry of the covariance reducer *)

Lemma pair_of_swap (a b : string) (r : Z * gmap string R) :
  pair_of b a r
  = (fun p : Z * (R * R) => (p.1, swap_pair p.2)) <$> pair_of a b r.
Proof. unfold pair_of. by destruct (r.2 !! a), (r.2 !! b). Qed.

Lemma complete_pairs_swap (a b : string) (df : DataFrame) :
  complete_pairs b a df
  = map (fun p : Z * (R * R) => (p.1, swap_pair p.2)) (complete_pairs a b df).
Proof.
  unfold complete_pairs. induction (rows df) as [|r rs IH]; [reflexivity|].
  cbn [omap list_omap]. rewrite pair_of_swap.
  destruct (pair_of a b r); cbn; by rewrite IH.
Qed.

Lemma bucket_map {A B} (f : A → B) (freq : positive) (t : Z) (ps : list (Z * A)) :
  bucket freq t (map (fun p : Z * A => (p.1, f p.2)) ps) = map f (bucket freq t ps).
Proof.
  unfold bucket. induction ps as [|p ps IH]; [reflexivity|].
  cbn. destruct (bool_decide (t ≤ p.1 < t + Z.pos freq)%Z); cbn; by rewrite IH.
Qed.

Lemma pop_cov_swap (ps : list (R * R)) : pop_cov (map swap_pair ps) = pop_cov ps.
Proof.
  destruct ps as [|p ps]; [reflexivity|].
  change (map swap_pair (p :: ps)) with (swap_pair p :: map swap_pair ps).
  unfold pop_cov.
  change (swap_pair p :: map swap_pair ps) with (map swap_pair (p :: ps)).
  generalize (p :: ps). clear. intros ps.
  rewrite !map_map. cbn [swap_pair fst snd].
  f_equal. unfold arith_mean. rewrite !length_map. do 2 f_equal.
  apply map_ext. intros q. apply Rmult_comm.
Qed.

Lemma covariance_series_sym (a b : string) (freq : positive) (k : R) (df : DataFrame) :
  covariance_series a b freq k df = covariance_series b a freq k df.
Proof.
  unfold covariance_series. cbv zeta.
  rewrite (complete_pairs_swap a b), map_map. cbn [fst].
  apply map_ext. intros t. by rewrite bucket_map, pop_cov_swap.
Qed.

(** C7. With [scale_factor = 1] and both columns present, exchanging the
    two variables of [covariance_flux] leaves every per-window value (and
    the window keys) unchanged. *)
Theorem covariance_flux_symmetric
    (df : DataFrame) (a b : string) (freq : positive) :
  a ∈ columns df →
  b ∈ columns df →
  ∃ fab fba,
    covariance_flux df a b freq 1 = Ok fab
    ∧ covariance_flux df b a freq 1 = Ok fba
    ∧ sdata fab = sdata fba.
Proof.
  intros Ha Hb. do 2 eexists.
  split; [by apply covariance_flux_eq|].
  split; [by apply covariance_flux_eq|].
  rewrite !sdata_flux_object. apply covariance_series_sym.
Qed.

Lemma covariance_flux_symmetric_scenario4 :
  "w" ∈ columns df_scenario4 ∧ "T" ∈ columns df_scenario4 ∧
  ∃ fab fba,
    covariance_flux df_scenario4 "w" "T" freq_30T 1 = Ok fab
    ∧ covariance_flux df_scenario4 "T" "w" freq_30T 1 = Ok fba
    ∧ sdata fab = sdata fba.
Proof.
  assert (Hw : "w" ∈ columns df_scenario4) by (cbn; repeat constructor).
  assert (HT : "T" ∈ columns df_scenario4) by (cbn; repeat constructor).
  split; [exact Hw|]. split; [exact HT|].
  exact (covariance_flux_symmetric df_scenario4 "w" "T" freq_30T Hw HT).
Defined.

(** ** A bucket with a single sample *)

Lemma pop_cov_single (p : R * R) : pop_cov [p] = Some 0%R.
Proof.
  unfold pop_cov, arith_mean. cbn. f_equal. field.
Qed.

(** On a table whose values are finite or missing, with both columns
    present, an output bucket that holds exactly one row once the rows with
    a missing value are dropped has the value 0 (not NaN), for every scale
    factor. *)
Theorem covariance_flux_single_row_bucket
    (df : DataFrame) (vertical_var scalar_var : string) (freq : positive)
    (scale_factor : R) (i : nat) (t : Z) :
  vertical_var ∈ columns df →
  scalar_var ∈ columns df →
  time_bins freq (map fst (complete_pairs vertical_var scalar_var df)) !! i = Some t →
  length (bucket freq t (complete_pairs vertical_var scalar_var df)) = 1 →
  ∃ flux,
    covariance_flux df vertical_var scalar_var freq scale_factor = Ok flux
    ∧ sdata flux !! i = Some (t, Some 0%R).
Proof.
  intros Ha Hb Ht Hlen. eexists. split; [by apply covariance_flux_eq|].
  rewrite sdata_flux_object. unfold covariance_series. cbv zeta.
  rewrite list_lookup_fmap, Ht. cbn. do 2 f_equal.
  destruct (bucket freq t (complete_pairs vertical_var scalar_var df)) as [|p [|q ps]];
    try discriminate Hlen.
  rewrite pop_cov_single. cbn. f_equal. apply Rmult_0_r.
Qed.

Lemma covariance_flux_single_row_scenario :
  "w" ∈ columns df_single ∧ "T" ∈ columns df_single ∧
  time_bins freq_30T (map fst (complete_pairs "w" "T" df_single)) !! 0 = Some 0%Z ∧
  length (bucket freq_30T 0 (complete_pairs "w" "T" df_single)) = 1 ∧
  ∃ flux,
    covariance_flux df_single "w" "T" freq_30T 1206 = Ok flux
    ∧ sdata flux !! 0 = Some (0%Z, Some 0%R).
Proof.
  assert (Hw : "w" ∈ columns df_single) by (cbn; repeat constructor).
  assert (HT : "T" ∈ columns df_single) by (cbn; repeat constructor).
  assert (Hb : time_bins freq_30T (map fst (complete_pairs "w" "T" df_single)) !! 0
               = Some 0%Z) by (vm_compute; reflexivity).
  assert (Hl : length (bucket freq_30T 0 (complete_pairs "w" "T" df_single)) = 1)
    by (vm_compute; reflexivity).
  repeat (split; [assumption|]).
  exact (covariance_flux_single_row_bucket df_single "w" "T" freq_30T 1206 0 0 Hw HT Hb Hl).
Defined.

(** ** The legacy wrapper and the router *)

Lemma flux_name_not_H (var_col : string) : var_col +:+ "_flux" ≠ "H_W_per_m2".
Proof.
  destruct var_col as [|c1 [|c2 [|c3 [|c4 [|c5 [|c6 s]]]]]]; intros H;
    cbv [String.append] in H; try congruence.
  injection H as _ _ _ _ _ _ H.
  destruct s as [|c7 [|c8 [|c9 [|c10 [|c11 s]]]]]; cbv [String.append] in H; congruence.
Qed.

(** On any table the router with selector ['H'] is the legacy wrapper
    followed by a renaming, errors included. *)
Lemma ecflux_H_legacy (df : DataFrame) (freq : positive) (var_col wind_col : string)
    (rho cp Lv : R) (kwargs : gmap string string) :
  ecflux df wind_col (Some var_col) "H" freq rho cp Lv kwargs
  = (flux ← sensible_heat_flux df freq var_col wind_col rho cp;
     mret (set_name "H_W_per_m2" flux)).
Proof. reflexivity. Qed.

(** C9. The case the claim does not survive: on a table that has both
    columns but no row in which both values are present, the legacy wrapper
    returns the unnamed empty frame of [covariance_flux], so it does not
    keep the name ["{var_col}_flux"]; the router returns the same empty
    frame with ['H_W_per_m2'] assigned to it. *)
Theorem sensible_heat_flux_legacy_no_complete_row
    (df : DataFrame) (freq : positive) (var_col wind_col : string)
    (rho cp Lv : R) (kwargs : gmap string string) :
  wind_col ∈ columns df →
  var_col ∈ columns df →
  complete_pairs wind_col var_col df = [] →
  sensible_heat_flux df freq var_col wind_col rho cp = Ok (EmptyFrame None)
  ∧ ecflux df wind_col (Some var_col) "H" freq rho cp Lv kwargs
    = Ok (EmptyFrame (Some "H_W_per_m2")).
Proof.
  intros Hw Hv He. rewrite ecflux_H_legacy. unfold sensible_heat_flux. cbv zeta.
  rewrite (covariance_flux_eq df wind_col var_col freq (rho * cp) Hw Hv).
  rewrite (covariance_series_nil _ _ _ _ _ He). split; reflexivity.
Qed.

(** The failing input of C9: the table with no complete row. *)
Lemma sensible_heat_flux_legacy_no_complete_row_scenario :
  "w" ∈ columns df_unpaired ∧ "T" ∈ columns df_unpaired
  ∧ complete_pairs "w" "T" df_unpaired = []
  ∧ sensible_heat_flux df_unpaired freq_30T "T" "w" 1.2 1005 = Ok (EmptyFrame None)
  ∧ ecflux df_unpaired "w" (Some "T") "H" freq_30T 1.2 1005 2500000 ∅
    = Ok (EmptyFrame (Some "H_W_per_m2")).
Proof.
  assert (Hw : "w" ∈ columns df_unpaired) by (cbn; repeat constructor).
  assert (HT : "T" ∈ columns df_unpaired) by (cbn; repeat constructor).
  assert (He : complete_pairs "w" "T" df_unpaired = []) by (vm_compute; reflexivity).
  repeat (split; [assumption|]).
  exact (sensible_heat_flux_legacy_no_complete_row df_unpaired freq_30T "T" "w"
           1.2 1005 2500000 ∅ Hw HT He).
Defined.

(** ** momentum_flux *)

Lemma row_complete_triple (u v w : string) (r : Z * gmap string R) :
  row_complete [u; v; w] r = true ↔ is_Some (triple_of u v w r).
Proof.
  unfold row_complete, triple_of, row_cell. cbn.
  destruct (r.2 !! u), (r.2 !! v), (r.2 !! w); cbn; split; intros H.
  all: try reflexivity; try discriminate H.
  all: by destruct H.
Qed.

Lemma triple_of_fst (u v w : string) (r : Z * gmap string R) p :
  triple_of u v w r = Some p → p.1 = r.1.
Proof.
  unfold triple_of. destruct (r.2 !! u), (r.2 !! v), (r.2 !! w); intros [= <-]; reflexivity.
Qed.

Lemma columns_of_complete3 (u v w : string) (rs : list (Z * gmap string R)) :
  Forall (fun r => row_complete [u; v; w] r = true) rs →
  let ss := map snd (omap (M:=list) (triple_of u v w) rs) in
  map (row_cell u) rs = map Some (map (fun s : R * R * R => s.1.1) ss)
  ∧ map (row_cell v) rs = map Some (map (fun s : R * R * R => s.1.2) ss)
  ∧ map (row_cell w) rs = map Some (map snd ss).
Proof.
  induction 1 as [|r rs Hr _ IH]; [by repeat split|].
  cbv zeta in *. destruct IH as (IHu & IHv & IHw).
  apply row_complete_triple in Hr as [p E]. cbn. rewrite E. cbn.
  rewrite IHu, IHv, IHw.
  unfold triple_of, row_cell in *.
  destruct (r.2 !! u), (r.2 !! v), (r.2 !! w); try discriminate.
  injection E as <-. by repeat split.
Qed.

Lemma covariance_of_lists (ps : list (R * R)) (xs ys : list R) :
  xs = map fst ps → ys = map snd ps →
  series_mean (series_mul (series_sub_scalar (map Some xs) (series_mean (map Some xs)))
                          (series_sub_scalar (map Some ys) (series_mean (map Some ys))))
  = pop_cov ps.
Proof. intros -> ->. apply covariance_of_pairs. Qed.

Lemma cell_sqrt_sum_squares (a b : R) :
  cell_sqrt (cell_add (cell_mul (Some a) (Some a)) (cell_mul (Some b) (Some b)))
  = Some (sqrt (a * a + b * b)).
Proof.
  cbn. unfold np_sqrt. destruct (Rle_dec 0 (a * a + b * b)) as [_|N]; [reflexivity|].
  exfalso. apply N. nra.
Qed.

Lemma window_tau_complete (u v w : string) (rho : R) (rs : list (Z * gmap string R)) :
  Forall (fun r => row_complete [u; v; w] r = true) rs →
  compute_tau_window u v w rho (mkDataFrame [u; v; w] rs)
  = Ok (tau_of rho (map snd (omap (M:=list) (triple_of u v w) rs))).
Proof.
  intros Hc. unfold compute_tau_window.
  rewrite !getitem_present by (repeat constructor).
  cbn [mbind result_bind mret result_ret].
  destruct (columns_of_complete3 u v w rs Hc) as (-> & -> & ->).
  set (ss := map snd (omap (M:=list) (triple_of u v w) rs)).
  rewrite (covariance_of_lists (map uw_of ss)) by (by rewrite map_map).
  rewrite (covariance_of_lists (map vw_of ss)) by (by rewrite map_map).
  unfold tau_of.
  destruct (pop_cov (map uw_of ss)) as [a|], (pop_cov (map vw_of ss)) as [b|];
    try reflexivity.
  rewrite cell_sqrt_sum_squares. reflexivity.
Qed.

Lemma set_name_wrap (name : string) (values : list (Z * cell)) :
  set_name name (wrap_applied_output values) = flux_object name (Some name) values.
Proof. by destruct values. Qed.

Lemma momentum_flux_eq (df : DataFrame) (freq : positive) (u v w : string) (rho : R) :
  u ∈ columns df → v ∈ columns df → w ∈ columns df →
  momentum_flux df freq u v w rho
  = Ok (flux_object "tau_N_per_m2" (Some "tau_N_per_m2")
          (tau_series u v w freq rho df)).
Proof.
  intros Hu Hv Hw. unfold momentum_flux.
  rewrite select_present by (repeat constructor; assumption).
  cbn [mbind result_bind]. unfold groupby, dropna, df_index. cbn [columns rows].
  rewrite (index_complete _ _ (row_complete_triple _ _ _) (triple_of_fst _ _ _)).
  erewrite apply_map; [|intros t; apply window_tau_complete,
                                      filter_all_complete].
  cbn [mbind result_bind mret result_ret]. rewrite set_name_wrap. do 2 f_equal.
  unfold tau_series, complete_triples, bucket.
  apply map_ext. intros t. cbn [columns rows].
  rewrite (omap_filter_in_bin _ (triple_of_fst _ _ _)).
  rewrite (omap_filter_complete _ _ (row_complete_triple _ _ _)). reflexivity.
Qed.

Lemma tau_scenario_value (rho : R) :
  tau_of rho [(1, 0, 1); (-1, 0, -1)]%R = Some rho.
Proof.
  assert (E1 : pop_cov (map uw_of [(1, 0, 1); (-1, 0, -1)]%R) = Some 1%R).
  { unfold pop_cov, arith_mean, uw_of. cbn. f_equal. field. }
  assert (E2 : pop_cov (map vw_of [(1, 0, 1); (-1, 0, -1)]%R) = Some 0%R).
  { unfold pop_cov, arith_mean, vw_of. cbn. f_equal. field. }
  unfold tau_of. rewrite E1, E2. f_equal.
  replace (1 * 1 + 0 * 0)%R with 1%R by lra. rewrite sqrt_1. lra.
Qed.



(** ** tke: fixed-count windows *)

Lemma lookup_map {A B} (f : A → B) (l : list A) (i : nat) :
  map f l !! i = f <$> l !! i.
Proof. apply (list_lookup_fmap f). Qed.

Lemma window_rows_length {X} (k j : nat) (rs : list X) :
  full k (length rs) j = true → length (window_rows k j rs) = k.
Proof.
  unfold full, window_rows. intros H%bool_decide_eq_true.
  rewrite length_take, length_drop. lia.
Qed.

Lemma window_rows_short {X} (k j : nat) (rs : list X) :
  full k (length rs) j = false → length (window_rows k j rs) < k.
Proof.
  unfold full, window_rows. intros H%bool_decide_eq_false.
  rewrite length_take, length_drop. lia.
Qed.

Lemma window_rows_lookup {X} (k j i : nat) (rs : list X) :
  i < k → window_rows k j rs !! i = rs !! (j * k + i).
Proof. intros H. unfold window_rows. by rewrite lookup_take_lt, lookup_drop. Qed.

Section TkeLoop.
Variables (df : DataFrame) (k : Z) (u v w : string).
Hypothesis Hu : u ∈ columns df.
Hypothesis Hv : v ∈ columns df.
Hypothesis Hw : w ∈ columns df.
Hypothesis Hk : (1 ≤ k)%Z.

Local Abbreviation n := (Z.to_nat k).
Local Abbreviation N := (length (rows df)).

Lemma iloc_window (j : nat) :
  iloc df (Z.of_nat j * k) (Z.of_nat j * k + k)
  = mkDataFrame (columns df) (window_rows n j (rows df)).
Proof.
  unfold iloc, window_rows. f_equal.
  replace (Z.of_nat j * k + k - Z.of_nat j * k)%Z with k by lia.
  replace (Z.to_nat (Z.of_nat j * k)) with (j * n) by lia.
  reflexivity.
Qed.

Lemma midpoint_full (j : nat) :
  full n N j = true →
  ∃ t, df_index df !! (j * n + n / 2) = Some t
       ∧ index_at (mkDataFrame (columns df) (window_rows n j (rows df))) (k `div` 2) = Ok t.
Proof.
  intros Hf. assert (0 < n) by lia.
  assert (Hlt : n / 2 < n) by (apply Nat.div_lt; lia).
  apply bool_decide_eq_true in Hf.
  destruct (lookup_lt_is_Some_2 (df_index df) (j * n + n / 2)) as [t Ht].
  { unfold df_index. rewrite length_map. lia. }
  exists t. split; [exact Ht|].
  unfold index_at, df_index in *. cbn [rows].
  replace (Z.to_nat (k `div` 2)) with (n / 2)
    by (rewrite Z2Nat.inj_div by lia; reflexivity).
  rewrite lookup_map, window_rows_lookup by exact Hlt.
  rewrite lookup_map in Ht. by rewrite Ht.
Qed.

Lemma tke_loop_eq (js : list nat) (acc : list cell * list Z) :
  tke_loop df k u v w (map (fun j : nat => (Z.of_nat j * k)%Z) js) acc
  = Ok (acc.1 ++ map (fun j => tke_of_window u v w (window_rows n j (rows df)))
                     (List.filter (full n N) js),
        acc.2 ++ omap (M:=list) (fun j => df_index df !! (j * n + n / 2))
                      (List.filter (full n N) js)).
Proof.
  revert acc. induction js as [|j js IH]; intros acc.
  - cbn. rewrite !app_nil_r. by destruct acc.
  - cbn [map tke_loop List.filter]. rewrite iloc_window.
    unfold len. cbn [rows].
    destruct (full n N j) eqn:Hf.
    + pose proof (window_rows_length n j (rows df) Hf) as Hlen.
      destruct (decide (Z.of_nat (length (window_rows n j (rows df))) < k)%Z) as [Hlt|_];
        [lia|].
      rewrite !getitem_present by assumption.
      cbn [mbind result_bind].
      destruct (midpoint_full j Hf) as (t & Ht & ->).
      cbn [mbind result_bind]. rewrite IH. cbn [fst snd map omap list_omap]. rewrite Ht.
      rewrite <- !app_assoc. reflexivity.
    + pose proof (window_rows_short n j (rows df) Hf) as Hlen.
      destruct (decide (Z.of_nat (length (window_rows n j (rows df))) < k)%Z) as [_|Hge];
        [|lia].
      apply IH.
Qed.
End TkeLoop.

Lemma filter_seq_prefix (P : nat → bool) (m M : nat) :
  (∀ j, P j = true ↔ j < m) →
  List.filter P (seq 0 M) = seq 0 (min m M).
Proof.
  intros HP. induction M as [|M IH]; [by rewrite Nat.min_0_r|].
  rewrite seq_S, List.filter_app, IH. cbn [List.filter Nat.add].
  destruct (P M) eqn:E.
  - apply HP in E. rewrite !Nat.min_r by lia. by rewrite seq_S.
  - assert (¬ M < m) by (intros H%HP; congruence).
    rewrite !Nat.min_l by lia. by rewrite app_nil_r.
Qed.

Lemma full_iff (n N j : nat) : 0 < n → full n N j = true ↔ j < N / n.
Proof.
  intros Hn. unfold full. rewrite bool_decide_eq_true. split; intros H.
  - apply (Nat.div_le_lower_bound N n (S j)); lia.
  - pose proof (Nat.Div0.mul_div_le N n). nia.
Qed.

Lemma full_windows_of_range (n N : nat) :
  0 < n →
  List.filter (full n N)
    (seq 0 (Z.to_nat ((Z.of_nat N + Z.of_nat n - 1) `div` Z.of_nat n)))
  = seq 0 (N / n).
Proof.
  intros Hn. rewrite (filter_seq_prefix _ (N / n)) by (intros j; by apply full_iff).
  f_equal. apply Nat.min_l.
  apply Nat2Z.inj_le. rewrite Nat2Z.inj_div, Z2Nat.id.
  - apply Z.div_le_mono; lia.
  - apply Z.div_pos; lia.
Qed.

(** What [tke] returns for a positive window size when the three columns
    are present. *)
Lemma tke_eq (df : DataFrame) (k : Z) (u v w : string) :
  u ∈ columns df → v ∈ columns df → w ∈ columns df → (1 ≤ k)%Z →
  let n := Z.to_nat k in
  let js := seq 0 (length (rows df) / n) in
  tke df k u v w
  = Ok (map (fun j => tke_of_window u v w (window_rows n j (rows df))) js,
        omap (M:=list) (fun j => df_index df !! (j * n + n / 2)) js).
Proof.
  intros Hu Hv Hw Hk n js. unfold tke, range0.
  destruct (decide (k = 0)%Z) as [?|_]; [lia|].
  destruct (decide (0 < k)%Z) as [_|?]; [|lia].
  cbn [mbind result_bind].
  rewrite (tke_loop_eq df k u v w Hu Hv Hw Hk). cbn [fst snd app].
  unfold len. subst n js.
  replace (Z.to_nat ((Z.of_nat (length (rows df)) + k - 1) `div` k))
    with (Z.to_nat ((Z.of_nat (length (rows df)) + Z.of_nat (Z.to_nat k) - 1)
                    `div` Z.of_nat (Z.to_nat k)))
    by (rewrite Z2Nat.id by lia; reflexivity).
  rewrite full_windows_of_range by lia. reflexivity.
Qed.

Lemma tke_py_same (df : DataFrame) (k : Z) (u v w : string) :
  tke_py.tke df k u v w = tke df k u v w.
Proof. reflexivity. Qed.

(** ** tke: the value of a window *)

Lemma notna_sub_nan (s : list cell) : notna (series_sub_scalar s nan) = [].
Proof. induction s as [|[x|] s IH]; [reflexivity|exact IH|exact IH]. Qed.

Lemma notna_sub_Some (s : list cell) (m : R) :
  notna (series_sub_scalar s (Some m)) = map (fun x => (x - m)%R) (notna s).
Proof.
  induction s as [|[x|] s IH]; [reflexivity| |exact IH].
  unfold notna, series_sub_scalar in *. cbn. by rewrite IH.
Qed.

Lemma notna_fluct (s : list cell) :
  notna (series_sub_scalar s (series_mean s)) = fluct (notna s).
Proof.
  unfold series_mean, fluct. destruct (notna s) as [|x xs] eqn:E.
  - apply notna_sub_nan.
  - by rewrite notna_sub_Some, E.
Qed.

Lemma series_var_sample (s : list cell) : series_var 1 s = sample_var (notna s).
Proof.
  unfold series_var, sample_var.
  destruct (decide (length (notna s) ≤ 1)); [reflexivity|].
  do 3 f_equal. apply map_ext. intros x. unfold arith_mean. ring.
Qed.

Lemma tke_of_window_spec (u v w : string) (win : list (Z * gmap string R)) :
  tke_of_window u v w win = window_tke u v w win.
Proof.
  unfold tke_of_window, tke_value, window_tke.
  rewrite !series_var_sample, !notna_fluct.
  destruct (sample_var (fluct (notna (column u win)))),
           (sample_var (fluct (notna (column v win)))),
           (sample_var (fluct (notna (column w win)))); reflexivity.
Qed.

Lemma omap_total {A B} (f : A → option B) (g : A → B) (l : list A) :
  Forall (fun x => f x = Some (g x)) l → omap (M:=list) f l = map g l.
Proof. induction 1 as [|x l Hx _ IH]; [reflexivity|]. cbn. by rewrite Hx, IH. Qed.

Lemma midpoints_total (df : DataFrame) (n : nat) :
  0 < n →
  omap (M:=list) (fun j => df_index df !! (j * n + n / 2)) (seq 0 (length (rows df) / n))
  = map (fun j => default 0%Z (df_index df !! (j * n + n / 2)))
        (seq 0 (length (rows df) / n)).
Proof.
  intros Hn. apply omap_total, Forall_forall. intros j Hj%elem_of_seq.
  destruct (lookup_lt_is_Some_2 (df_index df) (j * n + n / 2)) as [t Ht]; [|by rewrite Ht].
  unfold df_index. rewrite length_map.
  assert (n / 2 < n) by (apply Nat.div_lt; lia).
  assert (full n (length (rows df)) j = true) as Hf%bool_decide_eq_true
    by (apply full_iff; lia).
  lia.
Qed.

(** C3. With the three columns present and [window_size = k >= 1], [tke]
    (in flux.py and in tke.py) returns two lists of the same length
    [floor(N / k)]; the [i]-th value is computed from the [k] rows
    [i*k .. i*k + k - 1] only, so the windows do not overlap and the rows
    after the last full window are not used; the [i]-th timestamp is the
    index entry at offset [k // 2] of that window. *)
Theorem tke_fixed_count_windows
    (df : DataFrame) (window_size : Z) (u v w : string) :
  u ∈ columns df → v ∈ columns df → w ∈ columns df → (1 ≤ window_size)%Z →
  let k := Z.to_nat window_size in
  ∃ tke_list time_midpoints,
    tke df window_size u v w = Ok (tke_list, time_midpoints)
    ∧ tke_py.tke df window_size u v w = Ok (tke_list, time_midpoints)
    ∧ Z.of_nat (length tke_list) = (len df `div` window_size)%Z
    ∧ length time_midpoints = length tke_list
    ∧ ∀ i, i < length tke_list →
        let window := window_rows k i (rows df) in
        length window = k
        ∧ tke_list !! i = Some (tke_of_window u v w window)
        ∧ ∃ t, time_midpoints !! i = Some t
               ∧ map fst window !! (k / 2) = Some t
               ∧ df_index df !! (i * k + k / 2) = Some t.
Proof.
  intros Hu Hv Hw Hk k.
  assert (Hk0 : 0 < k) by (subst k; lia).
  do 2 eexists.
  split; [by apply tke_eq|].
  split; [rewrite <- (tke_eq df window_size u v w) by assumption; apply tke_py_same|].
  fold k.
  rewrite midpoints_total by exact Hk0. rewrite !length_map, length_seq.
  split.
  { unfold len. rewrite Nat2Z.inj_div. subst k. by rewrite Z2Nat.id by lia. }
  split; [reflexivity|].
  intros i Hi window.
  assert (Hf : full k (length (rows df)) i = true) by (by apply full_iff).
  split; [by apply window_rows_length|].
  rewrite !lookup_map, !lookup_seq_lt by exact Hi. cbn [fmap option_fmap option_map Nat.add].
  split; [reflexivity|].
  assert (Hlt : k / 2 < k) by (apply Nat.div_lt; lia).
  destruct (lookup_lt_is_Some_2 (df_index df) (i * k + k / 2)) as [t Ht].
  { unfold df_index. rewrite length_map. apply bool_decide_eq_true in Hf. lia. }
  exists t. rewrite Ht. split; [reflexivity|]. split; [|reflexivity].
  subst window. unfold df_index in Ht.
  rewrite window_rows_lookup by exact Hlt. by rewrite lookup_map in Ht.
Qed.

Lemma tke_fixed_count_windows_scenario :
  "u" ∈ columns df_tke ∧ "v" ∈ columns df_tke ∧ "w" ∈ columns df_tke ∧ (1 ≤ 4)%Z ∧
  ∃ tke_list time_midpoints,
    tke df_tke 4 "u" "v" "w" = Ok (tke_list, time_midpoints)
    ∧ tke_py.tke df_tke 4 "u" "v" "w" = Ok (tke_list, time_midpoints)
    ∧ Z.of_nat (length tke_list) = (len df_tke `div` 4)%Z
    ∧ length time_midpoints = length tke_list
    ∧ ∀ i, i < length tke_list →
        let window := window_rows 4 i (rows df_tke) in
        length window = 4
        ∧ tke_list !! i = Some (tke_of_window "u" "v" "w" window)
        ∧ ∃ t, time_midpoints !! i = Some t
               ∧ map fst window !! (4 / 2) = Some t
               ∧ df_index df_tke !! (i * 4 + 4 / 2) = Some t.
Proof.
  assert (Hu : "u" ∈ columns df_tke) by (cbn; repeat constructor).
  assert (Hv : "v" ∈ columns df_tke) by (cbn; repeat constructor).
  assert (Hw : "w" ∈ columns df_tke) by (cbn; repeat constructor).
  assert (Hk : (1 ≤ 4)%Z) by lia.
  repeat (split; [assumption|]).
  exact (tke_fixed_count_windows df_tke 4 "u" "v" "w" Hu Hv Hw Hk).
Defined.

(** ** tke: a constant component *)

Lemma sum_R_repeat (c : R) (n : nat) : sum_R (repeat c n) = (INR n * c)%R.
Proof.
  induction n as [|n IH]; [cbn; lra|].
  cbn [repeat sum_R foldr]. fold (sum_R (repeat c n)). rewrite IH, S_INR. lra.
Qed.

Lemma fluct_constant (c : R) (n : nat) : 0 < n → fluct (repeat c n) = repeat 0%R n.
Proof.
  intros Hn. unfold fluct, arith_mean.
  rewrite sum_R_repeat, repeat_length, map_repeat. f_equal.
  field. apply not_0_INR. lia.
Qed.

(** A component that is constant over a window of at least two samples has
    sample variance 0. *)
Lemma sample_var_constant (c : R) (n : nat) :
  2 ≤ n → sample_var (fluct (repeat c n)) = Some 0%R.
Proof.
  intros Hn. rewrite fluct_constant by lia. unfold sample_var, arith_mean.
  rewrite repeat_length. destruct (decide (n ≤ 1)); [lia|].
  rewrite map_repeat, !sum_R_repeat. f_equal.
  field. split; apply not_0_INR; lia.
Qed.

(** C4. With the three columns present and [window_size >= 1], the value
    [tke] returns for the [i]-th full window is
    [0.5 * (var(u') + var(v') + var(w'))], where [u'], [v'], [w'] are the
    fluctuations of the window's values about their window means and [var]
    is the sample variance with divisor [n - 1] (NaN when a column has fewer
    than two values in the window). *)
Theorem tke_window_value
    (df : DataFrame) (window_size : Z) (u v w : string) (i : nat) :
  u ∈ columns df → v ∈ columns df → w ∈ columns df → (1 ≤ window_size)%Z →
  i < length (rows df) / Z.to_nat window_size →
  let window := window_rows (Z.to_nat window_size) i (rows df) in
  ∃ tke_list time_midpoints,
    tke df window_size u v w = Ok (tke_list, time_midpoints)
    ∧ tke_list !! i
      = Some (half_sum3 (sample_var (fluct (notna (column u window))))
                        (sample_var (fluct (notna (column v window))))
                        (sample_var (fluct (notna (column w window))))).
Proof.
  intros Hu Hv Hw Hk Hi window. do 2 eexists.
  split; [by apply tke_eq|].
  rewrite lookup_map, lookup_seq_lt by exact Hi. cbn [fmap option_fmap option_map Nat.add].
  f_equal. apply tke_of_window_spec.
Qed.

(** The scenario of C4: [window_size = 4], [u = [1,1,1,1]], [v = [1,2,3,4]],
    [w = [2,4,6,8]]: the [u] component contributes 0 and
    [TKE = 0.5 * (var_v + var_w) = 0.5 * (5/3 + 20/3)]. *)
Lemma tke_window_value_scenario :
  "u" ∈ columns df_tke ∧ "v" ∈ columns df_tke ∧ "w" ∈ columns df_tke ∧ (1 ≤ 4)%Z ∧
  0 < length (rows df_tke) / Z.to_nat 4 ∧
  sample_var (fluct (notna (column "u" (window_rows 4 0 (rows df_tke))))) = Some 0%R ∧
  sample_var (fluct (notna (column "v" (window_rows 4 0 (rows df_tke))))) = Some (5 / 3)%R ∧
  sample_var (fluct (notna (column "w" (window_rows 4 0 (rows df_tke))))) = Some (20 / 3)%R ∧
  ∃ tke_list time_midpoints,
    tke df_tke 4 "u" "v" "w" = Ok (tke_list, time_midpoints)
    ∧ tke_list !! 0 = Some (Some (0.5 * (0 + 5 / 3 + 20 / 3))%R).
Proof.
  assert (Hu : "u" ∈ columns df_tke) by (cbn; repeat constructor).
  assert (Hv : "v" ∈ columns df_tke) by (cbn; repeat constructor).
  assert (Hw : "w" ∈ columns df_tke) by (cbn; repeat constructor).
  assert (Hk : (1 ≤ 4)%Z) by lia.
  assert (Hi : 0 < length (rows df_tke) / Z.to_nat 4) by (vm_compute; lia).
  assert (Eu : notna (column "u" (window_rows 4 0 (rows df_tke))) = repeat 1%R 4)
    by (vm_compute; reflexivity).
  assert (Ev : notna (column "v" (window_rows 4 0 (rows df_tke))) = [1; 2; 3; 4]%R)
    by (vm_compute; reflexivity).
  assert (Ew : notna (column "w" (window_rows 4 0 (rows df_tke))) = [2; 4; 6; 8]%R)
    by (vm_compute; reflexivity).
  assert (Vu : sample_var (fluct (notna (column "u" (window_rows 4 0 (rows df_tke)))))
               = Some 0%R) by (rewrite Eu; apply sample_var_constant; lia).
  assert (Vv : sample_var (fluct (notna (column "v" (window_rows 4 0 (rows df_tke)))))
               = Some (5 / 3)%R).
  { rewrite Ev. unfold sample_var, fluct, arith_mean. cbn. f_equal. field. }
  assert (Vw : sample_var (fluct (notna (column "w" (window_rows 4 0 (rows df_tke)))))
               = Some (20 / 3)%R).
  { rewrite Ew. unfold sample_var, fluct, arith_mean. cbn. f_equal. field. }
  repeat (split; [assumption|]).
  destruct (tke_window_value df_tke 4 "u" "v" "w" 0 Hu Hv Hw Hk Hi)
    as (tke_list & time_midpoints & E & Hval).
  exists tke_list, time_midpoints. split; [exact E|].
  change (Z.to_nat 4) with 4 in Hval. rewrite Vu, Vv, Vw in Hval. exact Hval.
Defined.

(** ** fluctuations *)

Lemma string_length_append (s t : string) :
  String.length (s +:+ t) = String.length s + String.length t.
Proof.
  induction s as [|a s IH]; [reflexivity|].
  change (String a s +:+ t) with (String a (s +:+ t)).
  cbn [String.length]. by rewrite IH.
Qed.

Lemma append_inj_l (s1 s2 t : string) : s1 +:+ t = s2 +:+ t → s1 = s2.
Proof.
  revert s2. induction s1 as [|a s1 IH]; intros [|b s2] H.
  - reflexivity.
  - apply (f_equal String.length) in H. rewrite !string_length_append in H.
    cbn [String.length] in H. lia.
  - apply (f_equal String.length) in H. rewrite !string_length_append in H.
    cbn [String.length] in H. lia.
  - change (String a (s1 +:+ t) = String b (s2 +:+ t)) in H.
    injection H as -> H. f_equal. by apply IH.
Qed.

Lemma setitem_index (acc : DataFrame) (n : string) (vals : list cell) :
  length vals = length (rows acc) →
  df_index (setitem acc n vals) = df_index acc.
Proof.
  unfold df_index, setitem. cbn [rows]. generalize (rows acc). clear acc.
  intros rs. revert vals. induction rs as [|r rs IH]; intros [|x vals] H;
    try discriminate H; [reflexivity|].
  cbn. f_equal. apply IH. by injection H.
Qed.

Lemma setitem_columns (acc : DataFrame) (n m : string) (vals : list cell) :
  m ∈ columns (setitem acc n vals) ↔ m = n ∨ m ∈ columns acc.
Proof.
  unfold setitem. cbn [columns]. destruct (decide (n ∈ columns acc)) as [Hn|Hn].
  - split; [by right|]. by intros [->|H].
  - rewrite elem_of_app, list_elem_of_singleton. tauto.
Qed.

Lemma setitem_column_eq (rs : list (Z * gmap string R)) (n : string) (vals : list cell) :
  length vals = length rs →
  map (row_cell n)
      (zip_with (fun (r : Z * gmap string R) (v : cell) =>
                   (r.1, partial_alter (fun _ => v) n r.2)) rs vals)
  = vals.
Proof.
  revert vals. induction rs as [|r rs IH]; intros [|x vals] H;
    try discriminate H; [reflexivity|].
  cbn. unfold row_cell at 1. cbn. rewrite lookup_partial_alter_eq.
  f_equal. apply IH. by injection H.
Qed.

Lemma setitem_column_ne (rs : list (Z * gmap string R)) (n m : string) (vals : list cell) :
  m ≠ n → length vals = length rs →
  map (row_cell m)
      (zip_with (fun (r : Z * gmap string R) (v : cell) =>
                   (r.1, partial_alter (fun _ => v) n r.2)) rs vals)
  = map (row_cell m) rs.
Proof.
  intros Hne. revert vals. induction rs as [|r rs IH]; intros [|x vals] H;
    try discriminate H; [reflexivity|].
  cbn. unfold row_cell at 1 3. cbn. rewrite lookup_partial_alter_ne by done.
  f_equal. apply IH. by injection H.
Qed.

Lemma getitem_setitem_eq (acc : DataFrame) (n : string) (vals : list cell) :
  length vals = length (rows acc) →
  getitem (setitem acc n vals) n = Ok vals.
Proof.
  intros H. unfold getitem.
  destruct (decide (n ∈ columns (setitem acc n vals))) as [_|N].
  - unfold setitem. cbn [rows]. by rewrite setitem_column_eq.
  - exfalso. apply N, setitem_columns. by left.
Qed.

Lemma getitem_setitem_ne (acc : DataFrame) (n m : string) (vals : list cell) :
  m ≠ n → length vals = length (rows acc) →
  getitem (setitem acc n vals) m = getitem acc m.
Proof.
  intros Hne H. unfold getitem.
  destruct (decide (m ∈ columns (setitem acc n vals))) as [Y|N],
           (decide (m ∈ columns acc)) as [Y'|N'].
  - unfold setitem. cbn [rows]. by rewrite setitem_column_ne.
  - apply setitem_columns in Y as [?|?]; contradiction.
  - exfalso. apply N, setitem_columns. by right.
  - reflexivity.
Qed.

Lemma notna_nil_all_nan (s : list cell) : notna s = [] → Forall (fun x => x = None) s.
Proof.
  induction s as [|[x|] s IH]; intros H; [constructor|discriminate H|].
  constructor; [reflexivity|]. by apply IH.
Qed.

Lemma series_fluctuation (s : list cell) :
  series_sub_scalar s (series_mean s) = map (fluctuation_of s) s.
Proof.
  unfold series_mean, series_sub_scalar.
  destruct (notna s) as [|y ys] eqn:E.
  - apply notna_nil_all_nan in E. induction E as [|x l -> _ IH]; [reflexivity|].
    cbn. f_equal. exact IH.
  - apply map_ext. intros [v|]; [|reflexivity].
    unfold fluctuation_of, arith_mean. by rewrite E.
Qed.

Section FluctuationsLoop.
Variable df : DataFrame.

Local Abbreviation step := (fluctuations_step df).

Lemma fluctuation_series_length (c : string) :
  length (fluctuation_series df c) = length (df_index df).
Proof.
  unfold fluctuation_series, series_sub_scalar, column, df_index.
  by rewrite !length_map.
Qed.

Lemma index_rows_length (acc : DataFrame) :
  df_index acc = df_index df → length (rows acc) = length (df_index df).
Proof. intros <-. unfold df_index. by rewrite length_map. Qed.

Lemma fluctuations_loop_ok (cols : list string) (acc : DataFrame) :
  (∀ c, c ∈ cols → c ∈ columns df) →
  fluctuations_loop df cols acc = Ok (foldl step acc cols).
Proof.
  revert acc. induction cols as [|c cols IH]; intros acc H; [reflexivity|].
  cbn [fluctuations_loop foldl].
  assert (Hc : c ∈ columns df) by (apply H; constructor).
  destruct (decide (c ∉ columns df)) as [N|_]; [contradiction|].
  unfold getitem. destruct (decide (c ∈ columns df)) as [_|N]; [|contradiction].
  cbn [mbind result_bind]. apply IH. intros c' Hc'. apply H. by constructor.
Qed.

Lemma fluctuations_loop_missing (cols : list string) (acc : DataFrame) :
  (∃ c, c ∈ cols ∧ c ∉ columns df) →
  ∃ c, c ∈ cols ∧ (c ∉ columns df)
       ∧ fluctuations_loop df cols acc
         = Raise (ValueError ("Column '" +:+ c +:+ "' not found in DataFrame")).
Proof.
  revert acc. induction cols as [|c cols IH]; intros acc (c0 & Hin & Hmiss).
  - by apply elem_of_nil in Hin.
  - cbn [fluctuations_loop].
    destruct (decide (c ∉ columns df)) as [N|Y].
    + exists c. split; [constructor|]. by split.
    + assert (Hc : c ∈ columns df) by (by destruct (decide (c ∈ columns df))).
      unfold getitem. destruct (decide (c ∈ columns df)) as [_|?]; [|contradiction].
      cbn [mbind result_bind].
      destruct (IH (setitem acc (c +:+ "_prime")
                      (series_sub_scalar (map (row_cell c) (rows df))
                         (series_mean (map (row_cell c) (rows df))))))
        as (c1 & Hin1 & Hmiss1 & E).
      { exists c0. split; [|exact Hmiss].
        apply elem_of_cons in Hin as [->|?]; [contradiction|assumption]. }
      exists c1. split; [by constructor|]. by split.
Qed.

Lemma fold_index (cols : list string) (acc : DataFrame) :
  df_index acc = df_index df → df_index (foldl step acc cols) = df_index df.
Proof.
  revert acc. induction cols as [|c cols IH]; intros acc H; [exact H|].
  cbn [foldl]. apply IH. unfold fluctuations_step. rewrite setitem_index; [exact H|].
  by rewrite fluctuation_series_length, index_rows_length.
Qed.

Lemma fold_columns (cols : list string) (acc : DataFrame) (name : string) :
  name ∈ columns (foldl step acc cols)
  ↔ name ∈ columns acc ∨ ∃ c, c ∈ cols ∧ name = c +:+ "_prime".
Proof.
  revert acc. induction cols as [|c cols IH]; intros acc; cbn [foldl].
  - split; [by left|]. intros [H|(c & H & _)]; [exact H|]. by apply elem_of_nil in H.
  - rewrite IH. unfold fluctuations_step. rewrite setitem_columns. split.
    + intros [[->|H]|(c' & H & ->)].
      * right. exists c. split; [constructor|reflexivity].
      * by left.
      * right. exists c'. split; [by constructor|reflexivity].
    + intros [H|(c' & H & ->)]; [left; by right|].
      apply elem_of_cons in H as [->|H]; [left; by left|].
      right. by exists c'.
Qed.

Lemma fold_getitem (cols : list string) (acc : DataFrame) (c : string) :
  df_index acc = df_index df →
  getitem (foldl step acc cols) (c +:+ "_prime")
  = if decide (c ∈ cols) then Ok (fluctuation_series df c)
    else getitem acc (c +:+ "_prime").
Proof.
  revert acc. induction cols as [|c' cols IH]; intros acc H; cbn [foldl].
  - destruct (decide (c ∈ [])) as [Hin|_]; [by apply elem_of_nil in Hin|reflexivity].
  - assert (Hlen : length (fluctuation_series df c') = length (rows acc))
      by (by rewrite fluctuation_series_length, index_rows_length).
    rewrite IH by (unfold fluctuations_step; by rewrite setitem_index).
    destruct (decide (c ∈ cols)) as [Hin|Hout].
    + destruct (decide (c ∈ c' :: cols)) as [_|N]; [reflexivity|].
      exfalso. apply N. by constructor.
    + destruct (decide (c = c')) as [->|Hne].
      * destruct (decide (c' ∈ c' :: cols)) as [_|N]; [|exfalso; apply N; constructor].
        unfold fluctuations_step. by apply getitem_setitem_eq.
      * destruct (decide (c ∈ c' :: cols)) as [Hin|_].
        { apply elem_of_cons in Hin as [?|?]; contradiction. }
        unfold fluctuations_step. apply getitem_setitem_ne; [|exact Hlen].
        intros E. by apply Hne, (append_inj_l c c' "_prime").
Qed.
End FluctuationsLoop.

Lemma present_or_missing (df : DataFrame) (cols : list string) :
  (∀ c, c ∈ cols → c ∈ columns df) ∨ (∃ c, c ∈ cols ∧ c ∉ columns df).
Proof.
  induction cols as [|c cols [IH|(c' & Hin & Hn)]].
  - left. intros c H. by apply elem_of_nil in H.
  - destruct (decide (c ∈ columns df)) as [Hc|Hc].
    + left. intros c' [->|H]%elem_of_cons; [exact Hc|by apply IH].
    + right. exists c. split; [constructor|exact Hc].
  - right. exists c'. split; [by constructor|exact Hn].
Qed.

(** C6. [fluctuations] fails, and then with the unknown-column error, exactly
    when a requested name is not a column of the table.  When every
    requested name is a column it returns a frame on the same index whose
    columns are the requested names suffixed with [_prime], the column for
    [c] holding the cells of [c] minus the arithmetic mean of [c] over the
    window. *)
Theorem fluctuations_columns (df : DataFrame) (cols : list string) :
  ((∃ e, fluctuations df (Some cols) = Raise e) ↔ (∃ c, c ∈ cols ∧ c ∉ columns df))
  ∧ (∀ e, fluctuations df (Some cols) = Raise e → UnknownColumn e)
  ∧ ((∀ c, c ∈ cols → c ∈ columns df) →
     ∃ df_prime,
       fluctuations df (Some cols) = Ok df_prime
       ∧ df_index df_prime = df_index df
       ∧ (∀ name, name ∈ columns df_prime ↔ ∃ c, c ∈ cols ∧ name = c +:+ "_prime")
       ∧ ∀ c, c ∈ cols →
           getitem df_prime (c +:+ "_prime")
           = Ok (map (fluctuation_of (column c (rows df))) (column c (rows df)))).
Proof.
  unfold fluctuations. fold (empty_frame df).
  assert (Hidx : df_index (empty_frame df) = df_index df).
  { unfold df_index, empty_frame. cbn [rows]. by rewrite map_map. }
  destruct (present_or_missing df cols) as [Hall|Hmiss].
  - rewrite (fluctuations_loop_ok df cols _ Hall).
    split; [|split].
    + split; [intros [e [=]]|]. intros (c & Hin & Hn). exfalso. by apply Hn, Hall.
    + intros e [=].
    + intros _. eexists. split; [reflexivity|].
      split; [by apply fold_index|]. split.
      * intros name. rewrite fold_columns. cbn [columns empty_frame]. split.
        -- intros [H|H]; [by apply elem_of_nil in H|exact H].
        -- intros H. by right.
      * intros c Hc. rewrite fold_getitem by exact Hidx.
        destruct (decide (c ∈ cols)) as [_|?]; [|contradiction].
        unfold fluctuation_series. by rewrite series_fluctuation.
  - destruct (fluctuations_loop_missing df cols (empty_frame df) Hmiss)
      as (c & Hin & Hn & E).
    rewrite E. split; [|split].
    + split; [intros _; by exists c|]. intros _. by eexists.
    + intros e [= <-]. by exists c.
    + intros Hall. exfalso. by apply Hn, Hall.
Qed.

(** Instances of C6 on the four-row table: the fluctuations of [w] are
    [-1.5, -0.5, 0.5, 1.5], and a request naming the absent column ["q"]
    fails. *)
Lemma fluctuations_columns_scenario :
  (∀ c, c ∈ ["w"; "T"] → c ∈ columns df_scenario4)
  ∧ (∃ df_prime,
       fluctuations df_scenario4 (Some ["w"; "T"]) = Ok df_prime
       ∧ df_index df_prime = df_index df_scenario4
       ∧ getitem df_prime "w_prime"
         = Ok [Some (-1.5)%R; Some (-0.5)%R; Some 0.5%R; Some 1.5%R])
  ∧ (∃ e, fluctuations df_scenario4 (Some ["w"; "q"]) = Raise e ∧ UnknownColumn e).
Proof.
  assert (Hall : ∀ c, c ∈ ["w"; "T"] → c ∈ columns df_scenario4).
  { intros c [->|[->|[]%elem_of_nil]%elem_of_cons]%elem_of_cons; cbn; repeat constructor. }
  split; [exact Hall|]. split.
  - destruct (proj2 (proj2 (fluctuations_columns df_scenario4 ["w"; "T"])) Hall)
      as (df_prime & E & Hidx & _ & Hget).
    exists df_prime. split; [exact E|]. split; [exact Hidx|].
    assert (Hw : "w" ∈ ["w"; "T"]) by constructor.
    specialize (Hget "w" Hw).
    assert (Ec : column "w" (rows df_scenario4) = [Some 1; Some 2; Some 3; Some 4]%R)
      by (vm_compute; reflexivity).
    rewrite Ec in Hget. etransitivity; [exact Hget|].
    unfold fluctuation_of, arith_mean. cbn.
    repeat (f_equal; try lra).
  - assert (Hq : ∃ c, c ∈ ["w"; "q"] ∧ c ∉ columns df_scenario4).
    { exists "q". split; [repeat constructor|].
      apply (bool_decide_eq_false_1 _). vm_compute. reflexivity. }
    destruct (proj2 (proj1 (fluctuations_columns df_scenario4 ["w"; "q"])) Hq) as [e E].
    exists e. split; [exact E|].
    exact (proj1 (proj2 (fluctuations_columns df_scenario4 ["w"; "q"])) e E).
Defined.

(** ** Time buckets *)

Lemma foldr_min_le (t0 : Z) (ts : list Z) (t : Z) :
  t ∈ t0 :: ts → (foldr Z.min t0 ts ≤ t)%Z.
Proof.
  revert t. induction ts as [|x ts IH]; cbn [foldr]; intros t H.
  - apply list_elem_of_singleton in H. lia.
  - assert (Ht0 : (foldr Z.min t0 ts ≤ t0)%Z) by (apply IH; constructor).
    apply elem_of_cons in H as [E|H]; [lia|].
    apply elem_of_cons in H as [E|H]; [lia|].
    assert (foldr Z.min t0 ts ≤ t)%Z by (apply IH; by constructor). lia.
Qed.

Lemma foldr_max_ge (t0 : Z) (ts : list Z) (t : Z) :
  t ∈ t0 :: ts → (t ≤ foldr Z.max t0 ts)%Z.
Proof.
  revert t. induction ts as [|x ts IH]; cbn [foldr]; intros t H.
  - apply list_elem_of_singleton in H. lia.
  - assert (Ht0 : (t0 ≤ foldr Z.max t0 ts)%Z) by (apply IH; constructor).
    apply elem_of_cons in H as [E|H]; [lia|].
    apply elem_of_cons in H as [E|H]; [lia|].
    assert (t ≤ foldr Z.max t0 ts)%Z by (apply IH; by constructor). lia.
Qed.

Lemma bucket_start_div (origin : Z) (freq : positive) (t : Z) :
  bucket_start origin freq t = (origin + ((t - origin) `div` Z.pos freq) * Z.pos freq)%Z.
Proof.
  unfold bucket_start. pose proof (Z.div_mod (t - origin) (Z.pos freq)). lia.
Qed.

Lemma bucket_start_bounds (origin : Z) (freq : positive) (t : Z) :
  (bucket_start origin freq t ≤ t < bucket_start origin freq t + Z.pos freq)%Z.
Proof.
  unfold bucket_start. pose proof (Z.mod_pos_bound (t - origin) (Z.pos freq)). lia.
Qed.

(** Every timestamp of the axis falls in one of the bins. *)
Lemma time_bins_cover (freq : positive) (ax : list Z) (t : Z) :
  t ∈ ax →
  ∃ i b, time_bins freq ax !! i = Some b ∧ (b ≤ t < b + Z.pos freq)%Z.
Proof.
  destruct ax as [|t0 ts]; [by intros ?%elem_of_nil|]. intros Hin.
  unfold time_bins.
  set (first := foldr Z.min t0 ts). set (last := foldr Z.max t0 ts).
  set (o := start_day first). set (f := Z.pos freq).
  assert (Hf : (first ≤ t)%Z) by (by apply foldr_min_le).
  assert (Hl : (t ≤ last)%Z) by (by apply foldr_max_ge).
  rewrite !bucket_start_div. fold f.
  set (qf := ((first - o) `div` f)%Z). set (ql := ((last - o) `div` f)%Z).
  set (qt := ((t - o) `div` f)%Z).
  assert (qf ≤ qt)%Z by (apply Z.div_le_mono; subst f; lia).
  assert (qt ≤ ql)%Z by (apply Z.div_le_mono; subst f; lia).
  replace (o + ql * f + f - (o + qf * f))%Z with ((ql - qf + 1) * f)%Z by lia.
  rewrite Z.div_mul by (subst f; lia).
  exists (Z.to_nat (qt - qf)), (bucket_start o freq t). split.
  - rewrite lookup_map, lookup_seq_lt by lia. cbn [fmap option_fmap option_map].
    f_equal. rewrite bucket_start_div. fold f qt. cbn [Nat.add].
    rewrite Z2Nat.id by lia. lia.
  - apply bucket_start_bounds.
Qed.

(** Consecutive bins are [freq] apart: the bins are in chronological order
    and none is skipped. *)
Lemma time_bins_step (freq : positive) (ax : list Z) (i : nat) (b b' : Z) :
  time_bins freq ax !! i = Some b →
  time_bins freq ax !! S i = Some b' →
  b' = (b + Z.pos freq)%Z.
Proof.
  destruct ax as [|t0 ts]; [discriminate|]. unfold time_bins.
  rewrite !lookup_map. intros H H'.
  destruct (seq 0 _ !! i) as [j|] eqn:Ej; [|discriminate H].
  destruct (seq 0 _ !! S i) as [j'|] eqn:Ej'; [|discriminate H'].
  apply lookup_seq in Ej as [-> _]. apply lookup_seq in Ej' as [-> _].
  cbn in H, H'. injection H as <-. injection H' as <-. lia.
Qed.

(** ** Rows after the last full window *)

Lemma map_seq_ext {B} (f g : nat → B) (s m : nat) :
  (∀ j, s ≤ j < s + m → f j = g j) → map f (seq s m) = map g (seq s m).
Proof.
  revert s. induction m as [|m IH]; intros s H; [reflexivity|].
  cbn. rewrite H by lia. f_equal. apply IH. intros j Hj. apply H. lia.
Qed.

Lemma omap_seq_ext {B} (f g : nat → option B) (s m : nat) :
  (∀ j, s ≤ j < s + m → f j = g j) →
  omap (M:=list) f (seq s m) = omap (M:=list) g (seq s m).
Proof.
  revert s. induction m as [|m IH]; intros s H; [reflexivity|].
  cbn. rewrite H by lia. rewrite (IH (S s)); [reflexivity|].
  intros j Hj. apply H. lia.
Qed.

Lemma window_rows_take {X} (n m j : nat) (rs : list X) :
  j < m → window_rows n j (take (m * n) rs) = window_rows n j rs.
Proof.
  intros Hj. unfold window_rows.
  rewrite !take_drop_commute, take_take. do 2 f_equal. nia.
Qed.

(** [tke] does not read the rows after the last full window. *)
Lemma tke_head (df : DataFrame) (k : Z) (u v w : string) :
  u ∈ columns df → v ∈ columns df → w ∈ columns df → (1 ≤ k)%Z →
  let n := Z.to_nat k in
  tke (head df (length (rows df) / n * n)) k u v w = tke df k u v w.
Proof.
  intros Hu Hv Hw Hk n.
  assert (Hn : 0 < n) by (subst n; lia).
  set (m := length (rows df) / n).
  assert (Hm : m * n ≤ length (rows df))
    by (subst m; pose proof (Nat.Div0.mul_div_le (length (rows df)) n); lia).
  rewrite (tke_eq (head df (m * n)) k u v w Hu Hv Hw Hk), (tke_eq df k u v w Hu Hv Hw Hk).
  fold n. fold m. unfold head, df_index. cbn [rows].
  rewrite length_take, Nat.min_l by exact Hm.
  rewrite Nat.div_mul by lia. f_equal. f_equal.
  - apply map_seq_ext. intros j Hj. by rewrite window_rows_take by lia.
  - apply omap_seq_ext. intros j Hj.
    rewrite !lookup_map, lookup_take_lt; [reflexivity|].
    assert (n / 2 < n) by (apply Nat.div_lt; lia). nia.
Qed.

(** ** The two windowing modes *)

Lemma covariance_series_lookup (a b : string) (freq : positive) (k : R)
    (df : DataFrame) (i : nat) (bk : Z) (v : cell) :
  covariance_series a b freq k df !! i = Some (bk, v) ↔
  time_bins freq (map fst (complete_pairs a b df)) !! i = Some bk
  ∧ v = scaled k (pop_cov (bucket freq bk (complete_pairs a b df))).
Proof.
  unfold covariance_series. cbv zeta. rewrite lookup_map.
  destruct (time_bins freq (map fst (complete_pairs a b df)) !! i) as [t|]; cbn.
  - split; [intros [= -> ->]; by split|]. by intros [[= ->] ->].
  - split; [discriminate|]. by intros [[=] _].
Qed.

(** C8, as the code has it.  Time-bucket mode ([covariance_flux]): the keys
    of the output are consecutive buckets, [freq] apart and in chronological
    order; every row that survives the missing-value drop falls in one of
    them; a bucket of the output that holds no such row is still there, with
    value NaN.  Fixed-count mode ([tke]): the output has [floor(N / k)]
    entries and is the same as on the table cut after the last full window,
    so a trailing window of fewer than [k] rows never shows. *)
Theorem windowing_modes_asymmetric
    (df : DataFrame) (a b : string) (freq : positive) (scale_factor : R)
    (window_size : Z) (u v w : string) :
  a ∈ columns df → b ∈ columns df →
  u ∈ columns df → v ∈ columns df → w ∈ columns df → (1 ≤ window_size)%Z →
  let ps := complete_pairs a b df in
  let k := Z.to_nat window_size in
  (∃ flux,
     covariance_flux df a b freq scale_factor = Ok flux
     ∧ (∀ t, t ∈ map fst ps →
          ∃ i bk x, sdata flux !! i = Some (bk, x) ∧ (bk ≤ t < bk + Z.pos freq)%Z)
     ∧ (∀ i bk x bk' x',
          sdata flux !! i = Some (bk, x) → sdata flux !! S i = Some (bk', x') →
          bk' = (bk + Z.pos freq)%Z)
     ∧ (∀ i bk x,
          sdata flux !! i = Some (bk, x) → bucket freq bk ps = [] → x = nan))
  ∧ (∃ tke_list time_midpoints,
       tke df window_size u v w = Ok (tke_list, time_midpoints)
       ∧ length tke_list = length (rows df) / k
       ∧ length time_midpoints = length (rows df) / k
       ∧ tke (head df (length (rows df) / k * k)) window_size u v w
         = Ok (tke_list, time_midpoints)).
Proof.
  intros Ha Hb Hu Hv Hw Hk ps k. split.
  - eexists. split; [by apply covariance_flux_eq|]. rewrite sdata_flux_object.
    split; [|split].
    + intros t Ht. destruct (time_bins_cover freq _ t Ht) as (i & bk & Hi & Hin).
      exists i, bk. eexists. split; [|exact Hin].
      apply covariance_series_lookup. by split.
    + intros i bk x bk' x' [H _]%covariance_series_lookup [H' _]%covariance_series_lookup.
      exact (time_bins_step freq _ i bk bk' H H').
    + intros i bk x [_ ->]%covariance_series_lookup E. fold ps. by rewrite E.
  - subst k. do 2 eexists.
    rewrite (tke_head df window_size u v w Hu Hv Hw Hk).
    split; [by apply tke_eq|].
    split; [by rewrite length_map, length_seq|].
    split; [|by apply tke_eq].
    rewrite midpoints_total by lia. by rewrite length_map, length_seq.
Qed.

(** C8 as stated fails on a table whose first row has a missing value: the
    row at time 0 lies in the bucket [[0, 30min)] of the table's span, but
    the output starts at the bucket of the first complete row. *)
Lemma time_bucket_leading_missing_row :
  ∃ flux,
    covariance_flux df_lead "w" "T" freq_30T 1 = Ok flux
    ∧ sdata flux = [(1800000000000%Z, Some 0%R)]
    ∧ (∃ r, r ∈ rows df_lead ∧ r.1 = 0%Z)
    ∧ ¬ (∃ i bk x, sdata flux !! i = Some (bk, x)
                   ∧ (bk ≤ 0 < bk + Z.pos freq_30T)%Z).
Proof.
  assert (Hw : "w" ∈ columns df_lead) by (cbn; repeat constructor).
  assert (HT : "T" ∈ columns df_lead) by (cbn; repeat constructor).
  assert (E : ∃ x, covariance_series "w" "T" freq_30T 1 df_lead
                   = [(1800000000000%Z, Some x)] ∧ x = 0%R).
  { eexists. split; [vm_compute; reflexivity|]. lra. }
  destruct E as (x & E & ->).
  eexists. split; [by apply covariance_flux_eq|]. rewrite sdata_flux_object. rewrite E.
  split; [reflexivity|]. split.
  - eexists. split; [constructor|reflexivity].
  - intros (i & bk & x & Hi & Hb). destruct i as [|i]; [|destruct i; discriminate Hi].
    injection Hi as <- _. unfold freq_30T in Hb. lia.
Qed.

(** Instance of C8 on the table with a gap: the empty middle bucket is in
    the time-bucket output as NaN, while the third row, a trailing window of
    one row for [window_size = 2], is not in the fixed-count output. *)
Lemma windowing_modes_asymmetric_scenario :
  "w" ∈ columns df_gap ∧ "u" ∈ columns df_gap ∧ "v" ∈ columns df_gap ∧ (1 ≤ 2)%Z
  ∧ covariance_flux df_gap "w" "u" freq_30T 1
    = Ok (mkSeries (Some "u_flux")
            [(0%Z, Some 0%R); (1800000000000%Z, nan); (3600000000000%Z, Some 1%R)])
  ∧ tke df_gap 2 "u" "v" "w" = Ok ([Some 0.5%R], [3600000000000%Z])
  ∧ (∃ flux,
       covariance_flux df_gap "w" "u" freq_30T 1 = Ok flux
       ∧ (∀ t, t ∈ map fst (complete_pairs "w" "u" df_gap) →
            ∃ i bk x, sdata flux !! i = Some (bk, x)
                      ∧ (bk ≤ t < bk + Z.pos freq_30T)%Z)
       ∧ (∀ i bk x bk' x',
            sdata flux !! i = Some (bk, x) → sdata flux !! S i = Some (bk', x') →
            bk' = (bk + Z.pos freq_30T)%Z)
       ∧ (∀ i bk x,
            sdata flux !! i = Some (bk, x) →
            bucket freq_30T bk (complete_pairs "w" "u" df_gap) = [] → x = nan))
  ∧ (∃ tke_list time_midpoints,
       tke df_gap 2 "u" "v" "w" = Ok (tke_list, time_midpoints)
       ∧ length tke_list = length (rows df_gap) / Z.to_nat 2
       ∧ length time_midpoints = length (rows df_gap) / Z.to_nat 2
       ∧ tke (head df_gap (length (rows df_gap) / Z.to_nat 2 * Z.to_nat 2)) 2 "u" "v" "w"
         = Ok (tke_list, time_midpoints)).
Proof.
  assert (Hw : "w" ∈ columns df_gap) by (cbn; repeat constructor).
  assert (Hu : "u" ∈ columns df_gap) by (cbn; repeat constructor).
  assert (Hv : "v" ∈ columns df_gap) by (cbn; repeat constructor).
  assert (Hk : (1 ≤ 2)%Z) by lia.
  repeat (split; [assumption|]).
  split; [|split].
  - assert (E : ∃ x0 x2, covariance_series "w" "u" freq_30T 1 df_gap
                  = [(0%Z, Some x0); (1800000000000%Z, nan); (3600000000000%Z, Some x2)]
                  ∧ x0 = 0%R ∧ x2 = 1%R).
    { do 2 eexists. split; [vm_compute; reflexivity|]. split; lra. }
    destruct E as (x0 & x2 & E & -> & ->).
    rewrite (covariance_flux_eq df_gap "w" "u" freq_30T 1 Hw Hu). by rewrite E.
  - assert (E : ∃ x, tke df_gap 2 "u" "v" "w" = Ok ([Some x], [3600000000000%Z])
                     ∧ x = 0.5%R).
    { eexists. split; [vm_compute; reflexivity|]. lra. }
    by destruct E as (x & -> & ->).
  - exact (windowing_modes_asymmetric df_gap "w" "u" freq_30T 1 2 "u" "v" "w"
             Hw Hu Hu Hv Hw Hk).
Defined.

(** * Further properties of the code *)

(** ** covariance_flux: missing columns and scaling *)

Lemma select_missing (df : DataFrame) (cols : list string) (c : string) :
  c ∈ cols → c ∉ columns df →
  select df cols = Raise (KeyError (filter (fun c => c ∉ columns df) cols)).
Proof.
  intros Hin Hn. unfold select.
  destruct (filter (fun c => c ∉ columns df) cols) as [|m ms] eqn:E; [|reflexivity].
  assert (H : c ∈ filter (fun c => c ∉ columns df) cols)
    by (apply list_elem_of_filter; by split).
  rewrite E in H. by apply elem_of_nil in H.
Qed.

(** A column that is not in the table makes [covariance_flux] raise the
    [KeyError] of [df[[vertical_var, scalar_var]]], which lists the absent
    names in the order given; nothing is computed. *)
Theorem covariance_flux_missing_column
    (df : DataFrame) (vertical_var scalar_var : string) (freq : positive)
    (scale_factor : R) :
  vertical_var ∉ columns df ∨ scalar_var ∉ columns df →
  covariance_flux df vertical_var scalar_var freq scale_factor
  = Raise (KeyError (filter (fun c => c ∉ columns df) [vertical_var; scalar_var])).
Proof.
  intros H. unfold covariance_flux.
  destruct H as [H|H].
  - rewrite (select_missing df _ vertical_var) by (repeat constructor || exact H).
    reflexivity.
  - rewrite (select_missing df _ scalar_var) by (repeat constructor || exact H).
    reflexivity.
Qed.

Lemma covariance_flux_absent
    (df : DataFrame) (vertical_var scalar_var : string) (freq : positive) (k : R) :
  vertical_var ∉ columns df ∨ scalar_var ∉ columns df →
  covariance_flux df vertical_var scalar_var freq k
  = Raise (KeyError (filter (fun c => c ∉ columns df) [vertical_var; scalar_var])).
Proof.
  intros H. unfold covariance_flux.
  destruct H as [H|H].
  - rewrite (select_missing df _ vertical_var) by (repeat constructor || exact H).
    reflexivity.
  - rewrite (select_missing df _ scalar_var) by (repeat constructor || exact H).
    reflexivity.
Qed.

Lemma covariance_flux_missing_column_scenario :
  ("w" ∉ columns df_scenario4 ∨ "q" ∉ columns df_scenario4)
  ∧ covariance_flux df_scenario4 "w" "q" freq_30T 1 = Raise (KeyError ["q"]).
Proof.
  assert (Hq : "q" ∉ columns df_scenario4)
    by (apply (bool_decide_eq_false_1 _); vm_compute; reflexivity).
  split; [by right|].
  rewrite (covariance_flux_missing_column df_scenario4 "w" "q" freq_30T 1 (or_intror Hq)).
  vm_compute. reflexivity.
Defined.

Lemma present_or_not2 (df : DataFrame) (a b : string) :
  (a ∈ columns df ∧ b ∈ columns df) ∨ (a ∉ columns df ∨ b ∉ columns df).
Proof.
  destruct (decide (a ∈ columns df)), (decide (b ∈ columns df)); tauto.
Qed.

Lemma scaled_one (c : cell) : scaled 1 c = c.
Proof. destruct c; cbn; [|reflexivity]. f_equal. lra. Qed.

(** On every table the flux with [scale_factor = k] is the flux with
    [scale_factor = 1] with every value multiplied by [k]: same keys, same
    name, same error if any. *)
Theorem covariance_flux_scale_linear
    (df : DataFrame) (a b : string) (freq : positive) (k : R) :
  covariance_flux df a b freq k
  = (flux ← covariance_flux df a b freq 1;
     mret (scale_object k flux)).
Proof.
  destruct (present_or_not2 df a b) as [[Ha Hb]|H].
  - rewrite !(covariance_flux_eq df a b freq _ Ha Hb).
    cbn [mbind result_bind mret result_ret]. f_equal.
    unfold covariance_series. cbv zeta.
    destruct (time_bins freq (map fst (complete_pairs a b df))) as [|t ts];
      [reflexivity|].
    cbn [map flux_object scale_object]. f_equal.
    unfold scale_entries. cbn [map fst snd]. rewrite scaled_one. f_equal.
    rewrite map_map. apply map_ext. intros t'. cbn [fst snd]. by rewrite scaled_one.
  - by rewrite !(covariance_flux_absent df a b freq _ H).
Qed.

(** ** covariance_flux: sign of the flux of a column with itself *)

Lemma sum_R_nonneg {A} (f : A → R) (l : list A) :
  Forall (fun x => (0 <= f x)%R) l → (0 <= sum_R (map f l))%R.
Proof.
  induction 1 as [|x l Hx _ IH]; cbn; [lra|].
  fold (sum_R (map f l)). lra.
Qed.

Lemma arith_mean_nonneg {A} (f : A → R) (l : list A) :
  l ≠ [] → Forall (fun x => (0 <= f x)%R) l → (0 <= arith_mean (map f l))%R.
Proof.
  intros Hne H. unfold arith_mean. rewrite length_map.
  apply Rmult_le_pos; [by apply sum_R_nonneg|].
  left. apply Rinv_0_lt_compat, lt_0_INR. destruct l; [done|cbn; lia].
Qed.

Lemma pop_cov_ne (ps : list (R * R)) :
  ps ≠ [] →
  pop_cov ps
  = Some (arith_mean
            (map (fun p : R * R =>
                    ((p.1 - arith_mean (map fst ps)) * (p.2 - arith_mean (map snd ps)))%R)
                 ps)).
Proof. by destruct ps. Qed.

Lemma pop_cov_diag_nonneg (ps : list (R * R)) (x : R) :
  Forall (fun p : R * R => p.1 = p.2) ps → pop_cov ps = Some x → (0 <= x)%R.
Proof.
  intros Hd. assert (E : map snd ps = map fst ps).
  { induction Hd as [|p l Hp _ IH]; [reflexivity|]. cbn. by rewrite Hp, IH. }
  destruct (decide (ps = [])) as [->|Hne]; [discriminate|].
  rewrite (pop_cov_ne ps Hne), E. intros [= <-].
  apply arith_mean_nonneg; [exact Hne|].
  eapply Forall_impl; [exact Hd|]. intros q Hq. cbn beta in *. rewrite <- Hq.
  apply (Rle_0_sqr (q.1 - arith_mean (map fst ps))).
Qed.

Lemma complete_pairs_diag (a : string) (df : DataFrame) :
  Forall (fun p : Z * (R * R) => p.2.1 = p.2.2) (complete_pairs a a df).
Proof.
  unfold complete_pairs. induction (rows df) as [|r rs IH]; [constructor|].
  cbn. unfold pair_of at 1. destruct (r.2 !! a); [|exact IH]. by constructor.
Qed.

Lemma bucket_Forall {A} (P : A → Prop) (freq : positive) (t : Z) (ps : list (Z * A)) :
  Forall (fun p : Z * A => P p.2) ps → Forall P (bucket freq t ps).
Proof.
  unfold bucket. induction 1 as [|p l Hp _ IH]; [constructor|].
  cbn. destruct (bool_decide (t ≤ p.1 < t + Z.pos freq)%Z); [by constructor|exact IH].
Qed.

(** The flux of a variable with itself (a variance) is never negative when
    the scale factor is not. *)
Theorem covariance_flux_self_nonneg
    (df : DataFrame) (a : string) (freq : positive) (scale_factor : R) :
  a ∈ columns df → (0 <= scale_factor)%R →
  ∃ flux,
    covariance_flux df a a freq scale_factor = Ok flux
    ∧ ∀ i t x, sdata flux !! i = Some (t, Some x) → (0 <= x)%R.
Proof.
  intros Ha Hk. eexists. split; [by apply covariance_flux_eq|]. rewrite sdata_flux_object.
  intros i t x [_ Hx]%covariance_series_lookup.
  destruct (pop_cov (bucket freq t (complete_pairs a a df))) as [y|] eqn:E;
    [|discriminate Hx].
  cbn in Hx. injection Hx as ->.
  apply Rmult_le_pos; [exact Hk|].
  apply (pop_cov_diag_nonneg _ _ (bucket_Forall _ freq t _ (complete_pairs_diag a df)) E).
Qed.

Lemma covariance_flux_self_nonneg_scenario :
  "w" ∈ columns df_scenario4 ∧ (0 <= 1)%R ∧
  ∃ flux,
    covariance_flux df_scenario4 "w" "w" freq_30T 1 = Ok flux
    ∧ ∀ i t x, sdata flux !! i = Some (t, Some x) → (0 <= x)%R.
Proof.
  assert (Hw : "w" ∈ columns df_scenario4) by (cbn; repeat constructor).
  assert (Hk : (0 <= 1)%R) by lra.
  split; [exact Hw|]. split; [exact Hk|].
  exact (covariance_flux_self_nonneg df_scenario4 "w" freq_30T 1 Hw Hk).
Defined.

(** ** covariance_flux: where the buckets lie *)

Lemma time_bins_lookup (freq : positive) (t0 : Z) (ts : list Z) (i : nat) (b : Z) :
  time_bins freq (t0 :: ts) !! i = Some b →
  let first := foldr Z.min t0 ts in
  let last := foldr Z.max t0 ts in
  let o := start_day first in
  let f := Z.pos freq in
  b = (o + ((first - o) `div` f + Z.of_nat i) * f)%Z
  ∧ ((first - o) `div` f + Z.of_nat i ≤ (last - o) `div` f)%Z.
Proof.
  intros H first last o f. unfold time_bins in H. fold first last o in H.
  rewrite !bucket_start_div in H. fold f in H.
  replace (o + (last - o) `div` f * f + f - (o + (first - o) `div` f * f))%Z
    with (((last - o) `div` f - (first - o) `div` f + 1) * f)%Z in H by lia.
  rewrite Z.div_mul in H by (subst f; lia).
  rewrite lookup_map in H.
  destruct (seq 0 _ !! i) as [j|] eqn:Ej; [|discriminate H].
  apply lookup_seq in Ej as [-> Hi]. cbn in H. injection H as <-.
  split; lia.
Qed.

Lemma time_bins_aligned (freq : positive) (ax : list Z) (i : nat) (b : Z) :
  (Z.pos freq | day_nanos)%Z → time_bins freq ax !! i = Some b → (Z.pos freq | b)%Z.
Proof.
  intros Hd H. destruct ax as [|t0 ts]; [discriminate|].
  apply time_bins_lookup in H as [-> _].
  apply Z.divide_add_r; [|apply Z.divide_factor_r].
  unfold start_day. set (first := foldr Z.min t0 ts).
  replace (first - first `mod` day_nanos)%Z with (first `div` day_nanos * day_nanos)%Z
    by (pose proof (Z.div_mod first day_nanos); unfold day_nanos in *; lia).
  by apply Z.divide_mul_r.
Qed.

(** With the pandas default [origin='start_day'], a frequency that divides
    the day puts every bucket key on a multiple of [freq] counted from the
    epoch, wherever the data starts. *)
Theorem covariance_flux_keys_aligned
    (df : DataFrame) (a b : string) (freq : positive) (scale_factor : R) :
  a ∈ columns df → b ∈ columns df → (Z.pos freq | day_nanos)%Z →
  ∃ flux,
    covariance_flux df a b freq scale_factor = Ok flux
    ∧ ∀ i t x, sdata flux !! i = Some (t, x) → (Z.pos freq | t)%Z.
Proof.
  intros Ha Hb Hd. eexists. split; [by apply covariance_flux_eq|]. rewrite sdata_flux_object.
  intros i t x [H _]%covariance_series_lookup.
  exact (time_bins_aligned freq _ i t Hd H).
Qed.

Lemma covariance_flux_keys_aligned_scenario :
  "w" ∈ columns df_gap ∧ "u" ∈ columns df_gap ∧ (Z.pos freq_30T | day_nanos)%Z ∧
  ∃ flux,
    covariance_flux df_gap "w" "u" freq_30T 1 = Ok flux
    ∧ ∀ i t x, sdata flux !! i = Some (t, x) → (Z.pos freq_30T | t)%Z.
Proof.
  assert (Hw : "w" ∈ columns df_gap) by (cbn; repeat constructor).
  assert (Hu : "u" ∈ columns df_gap) by (cbn; repeat constructor).
  assert (Hd : (Z.pos freq_30T | day_nanos)%Z) by (exists 48%Z; reflexivity).
  repeat (split; [assumption|]).
  exact (covariance_flux_keys_aligned df_gap "w" "u" freq_30T 1 Hw Hu Hd).
Defined.

Lemma foldr_min_in (t0 : Z) (ts : list Z) : foldr Z.min t0 ts ∈ t0 :: ts.
Proof.
  induction ts as [|x ts IH]; cbn [foldr]; [constructor|].
  destruct (Z.min_spec x (foldr Z.min t0 ts)) as [[_ ->]|[_ ->]].
  - right. left.
  - apply elem_of_cons in IH as [->|IH]; [left|by do 2 right].
Qed.

Lemma foldr_max_in (t0 : Z) (ts : list Z) : foldr Z.max t0 ts ∈ t0 :: ts.
Proof.
  induction ts as [|x ts IH]; cbn [foldr]; [constructor|].
  destruct (Z.max_spec x (foldr Z.max t0 ts)) as [[_ ->]|[_ ->]].
  - apply elem_of_cons in IH as [->|IH]; [left|by do 2 right].
  - right. left.
Qed.

Lemma time_bins_within (freq : positive) (ax : list Z) (i : nat) (b : Z) :
  time_bins freq ax !! i = Some b →
  ∃ t1 t2, t1 ∈ ax ∧ t2 ∈ ax ∧ (t1 < b + Z.pos freq)%Z ∧ (b ≤ t2)%Z.
Proof.
  intros H. destruct ax as [|t0 ts]; [discriminate|].
  apply time_bins_lookup in H as [-> Hle].
  set (first := foldr Z.min t0 ts) in *. set (last := foldr Z.max t0 ts) in *.
  set (o := start_day first) in *. set (f := Z.pos freq) in *.
  exists first, last. split; [apply foldr_min_in|]. split; [apply foldr_max_in|].
  pose proof (bucket_start_bounds o freq first) as Hf.
  pose proof (bucket_start_bounds o freq last) as Hl.
  rewrite !bucket_start_div in Hf, Hl. fold f in Hf, Hl.
  assert (0 < f)%Z by (subst f; lia). split; nia.
Qed.

(** No output bucket lies outside the rows that remain after the
    missing-value drop: every key's bucket [[t, t + freq)] starts no later
    than a remaining row and ends after a remaining row. *)
Theorem covariance_flux_keys_within_span
    (df : DataFrame) (a b : string) (freq : positive) (scale_factor : R) :
  a ∈ columns df → b ∈ columns df →
  ∃ flux,
    covariance_flux df a b freq scale_factor = Ok flux
    ∧ ∀ i t x, sdata flux !! i = Some (t, x) →
        ∃ t1 t2, t1 ∈ map fst (complete_pairs a b df)
                 ∧ t2 ∈ map fst (complete_pairs a b df)
                 ∧ (t1 < t + Z.pos freq)%Z ∧ (t ≤ t2)%Z.
Proof.
  intros Ha Hb. eexists. split; [by apply covariance_flux_eq|]. rewrite sdata_flux_object.
  intros i t x [H _]%covariance_series_lookup.
  exact (time_bins_within freq _ i t H).
Qed.

Lemma covariance_flux_keys_within_span_scenario :
  "w" ∈ columns df_lead ∧ "T" ∈ columns df_lead ∧
  ∃ flux,
    covariance_flux df_lead "w" "T" freq_30T 1 = Ok flux
    ∧ ∀ i t x, sdata flux !! i = Some (t, x) →
        ∃ t1 t2, t1 ∈ map fst (complete_pairs "w" "T" df_lead)
                 ∧ t2 ∈ map fst (complete_pairs "w" "T" df_lead)
                 ∧ (t1 < t + Z.pos freq_30T)%Z ∧ (t ≤ t2)%Z.
Proof.
  assert (Hw : "w" ∈ columns df_lead) by (cbn; repeat constructor).
  assert (HT : "T" ∈ columns df_lead) by (cbn; repeat constructor).
  repeat (split; [assumption|]).
  exact (covariance_flux_keys_within_span df_lead "w" "T" freq_30T 1 Hw HT).
Defined.

(** ** ecflux: the three routes *)

Lemma ecflux_route_H
    (raw_df : DataFrame) (w : string) (scalar : option string) (flux : string)
    (freq : positive) (rho cp Lv : R) (kwargs : gmap string string) :
  ci_eq flux "H" →
  ecflux raw_df w scalar flux freq rho cp Lv kwargs
  = match scalar with
    | None => Raise (ValueError "scalar (temperature) must be specified for sensible heat flux")
    | Some scalar => _sensible_heat_flux raw_df freq scalar w rho cp
    end.
Proof.
  intros H%upper_lower. unfold ecflux. cbv zeta. rewrite H.
  change (upper "H") with "H". by destruct (decide ("H" = "H")).
Qed.

Lemma ecflux_route_L
    (raw_df : DataFrame) (w : string) (scalar : option string) (flux : string)
    (freq : positive) (rho cp Lv : R) (kwargs : gmap string string) :
  ci_eq flux "L" ∨ ci_eq flux "LE" →
  ecflux raw_df w scalar flux freq rho cp Lv kwargs
  = match scalar with
    | None => Raise (ValueError "scalar (specific humidity) must be specified for latent heat flux")
    | Some scalar => _latent_heat_flux raw_df freq scalar w rho Lv
    end.
Proof.
  intros [H%upper_lower|H%upper_lower]; unfold ecflux; cbv zeta; rewrite H.
  - change (upper "L") with "L".
    destruct (decide ("L" = "H")) as [[=]|_].
    destruct (decide ("L" ∈ ["L"; "LE"])) as [_|N]; [reflexivity|].
    exfalso. apply N. constructor.
  - change (upper "LE") with "LE".
    destruct (decide ("LE" = "H")) as [[=]|_].
    destruct (decide ("LE" ∈ ["L"; "LE"])) as [_|N]; [reflexivity|].
    exfalso. apply N. repeat constructor.
Qed.

Lemma ecflux_route_Tau
    (raw_df : DataFrame) (w : string) (scalar : option string) (flux : string)
    (freq : positive) (rho cp Lv : R) (kwargs : gmap string string) :
  ci_eq flux "Tau" →
  ecflux raw_df w scalar flux freq rho cp Lv kwargs
  = _momentum_flux raw_df freq (default "u" (kwargs !! "u"))
      (default "v" (kwargs !! "v")) w rho.
Proof.
  intros H%upper_lower. unfold ecflux. cbv zeta. rewrite H.
  change (upper "Tau") with "TAU".
  destruct (decide ("TAU" = "H")) as [[=]|_].
  destruct (decide ("TAU" ∈ ["L"; "LE"])) as [E|_].
  { apply elem_of_cons in E as [[=]|E]. apply list_elem_of_singleton in E.
    discriminate E. }
  by destruct (decide ("TAU" = "TAU")).
Qed.

(** Latent heat: for the selectors [L] and [LE] in any letter case,
    [ecflux] with a scalar is [covariance_flux] with
    [scale_factor = rho * Lv], renamed ["LE_W_per_m2"], on every table;
    [cp] and the keyword arguments play no part, and an error of
    [covariance_flux] is passed on unchanged. *)
Theorem ecflux_latent_heat
    (raw_df : DataFrame) (w scalar flux : string)
    (freq : positive) (rho cp Lv : R) (kwargs : gmap string string) :
  ci_eq flux "L" ∨ ci_eq flux "LE" →
  ecflux raw_df w (Some scalar) flux freq rho cp Lv kwargs
  = (f ← covariance_flux raw_df w scalar freq (rho * Lv);
     mret (set_name "LE_W_per_m2" f)).
Proof. intros H. by rewrite (ecflux_route_L _ _ _ _ _ _ _ _ _ H). Qed.

Lemma ecflux_latent_heat_scenario :
  (ci_eq "le" "L" ∨ ci_eq "le" "LE")
  ∧ ecflux df_scenario4 "w" (Some "T") "le" freq_30T 1.2 1005 2500000 ∅
    = (f ← covariance_flux df_scenario4 "w" "T" freq_30T (1.2 * 2500000);
       mret (set_name "LE_W_per_m2" f)).
Proof.
  assert (H : ci_eq "le" "L" ∨ ci_eq "le" "LE") by (right; reflexivity).
  split; [exact H|].
  exact (ecflux_latent_heat df_scenario4 "w" "T" "le" freq_30T 1.2 1005 2500000 ∅ H).
Defined.

(** Momentum: for the selector [Tau] in any letter case, [ecflux] is
    [momentum_flux] on the columns named by the keyword arguments [u] and
    [v], which default to ["u"] and ["v"]; the scalar argument, [cp] and
    [Lv] are ignored. *)
Theorem ecflux_momentum
    (raw_df : DataFrame) (w : string) (scalar : option string) (flux : string)
    (freq : positive) (rho cp Lv : R) (kwargs : gmap string string) :
  ci_eq flux "Tau" →
  ecflux raw_df w scalar flux freq rho cp Lv kwargs
  = momentum_flux raw_df freq (default "u" (kwargs !! "u"))
      (default "v" (kwargs !! "v")) w rho.
Proof. intros H. by rewrite (ecflux_route_Tau _ _ _ _ _ _ _ _ _ H). Qed.

Lemma ecflux_momentum_scenario :
  ci_eq "tau" "Tau"
  ∧ ecflux df_tau "w" (Some "T") "tau" freq_30T 1.2 1005 2500000 (<["v" := "v"]> ∅)
    = Ok (mkSeries (Some "tau_N_per_m2") [(0%Z, Some 1.2%R)]).
Proof.
  assert (H : ci_eq "tau" "Tau") by reflexivity.
  split; [exact H|].
  rewrite (ecflux_momentum df_tau "w" (Some "T") "tau" freq_30T 1.2 1005 2500000
             (<["v" := "v"]> ∅) H).
  change (default "u" ((<["v" := "v"]> ∅ : gmap string string) !! "u")) with "u".
  change (default "v" ((<["v" := "v"]> ∅ : gmap string string) !! "v")) with "v".
  rewrite (momentum_flux_eq df_tau freq_30T "u" "v" "w" 1.2)
    by (cbn; repeat constructor).
  assert (Eb : time_bins freq_30T (map fst (complete_triples "u" "v" "w" df_tau)) = [0%Z])
    by (vm_compute; reflexivity).
  assert (Es : bucket freq_30T 0 (complete_triples "u" "v" "w" df_tau)
               = [(1, 0, 1); (-1, 0, -1)]%R) by (vm_compute; reflexivity).
  unfold tau_series. cbv zeta. rewrite Eb. cbn [map]. by rewrite Es, tau_scenario_value.
Defined.

(** The selector only counts up to letter case. *)
Theorem ecflux_case_insensitive
    (raw_df : DataFrame) (w : string) (scalar : option string) (flux1 flux2 : string)
    (freq : positive) (rho cp Lv : R) (kwargs : gmap string string) :
  ci_eq flux1 flux2 →
  ecflux raw_df w scalar flux1 freq rho cp Lv kwargs
  = ecflux raw_df w scalar flux2 freq rho cp Lv kwargs.
Proof. intros H%upper_lower. unfold ecflux. cbv zeta. by rewrite H. Qed.

Lemma ecflux_case_insensitive_scenario :
  ci_eq "Le" "lE"
  ∧ ecflux df_scenario4 "w" (Some "T") "Le" freq_30T 1.2 1005 2500000 ∅
    = ecflux df_scenario4 "w" (Some "T") "lE" freq_30T 1.2 1005 2500000 ∅.
Proof.
  assert (H : ci_eq "Le" "lE") by reflexivity.
  split; [exact H|].
  exact (ecflux_case_insensitive df_scenario4 "w" (Some "T") "Le" "lE" freq_30T
           1.2 1005 2500000 ∅ H).
Defined.

(** ** momentum_flux: missing columns, sign, symmetry *)

(** A wind column that is not in the table makes [momentum_flux] raise the
    [KeyError] of [df[[u_col, v_col, w_col]]] with the absent names. *)
Theorem momentum_flux_missing_column
    (df : DataFrame) (freq : positive) (u_col v_col w_col : string) (rho : R) :
  u_col ∉ columns df ∨ v_col ∉ columns df ∨ w_col ∉ columns df →
  momentum_flux df freq u_col v_col w_col rho
  = Raise (KeyError (filter (fun c => c ∉ columns df) [u_col; v_col; w_col])).
Proof.
  intros H. unfold momentum_flux. destruct H as [H|[H|H]].
  - by rewrite (select_missing df _ u_col) by (repeat constructor || exact H).
  - by rewrite (select_missing df _ v_col) by (repeat constructor || exact H).
  - by rewrite (select_missing df _ w_col) by (repeat constructor || exact H).
Qed.

Lemma momentum_flux_absent
    (df : DataFrame) (freq : positive) (u v w : string) (rho : R) :
  u ∉ columns df ∨ v ∉ columns df ∨ w ∉ columns df →
  momentum_flux df freq u v w rho
  = Raise (KeyError (filter (fun c => c ∉ columns df) [u; v; w])).
Proof.
  intros H. unfold momentum_flux. destruct H as [H|[H|H]].
  - by rewrite (select_missing df _ u) by (repeat constructor || exact H).
  - by rewrite (select_missing df _ v) by (repeat constructor || exact H).
  - by rewrite (select_missing df _ w) by (repeat constructor || exact H).
Qed.

Lemma momentum_flux_missing_column_scenario :
  ("U_m_s" ∉ columns df_tau ∨ "V_m_s" ∉ columns df_tau ∨ "w" ∉ columns df_tau)
  ∧ momentum_flux df_tau freq_30T "U_m_s" "V_m_s" "w" 1.2
    = Raise (KeyError ["U_m_s"; "V_m_s"]).
Proof.
  assert (HU : "U_m_s" ∉ columns df_tau)
    by (apply (bool_decide_eq_false_1 _); vm_compute; reflexivity).
  split; [by left|].
  rewrite (momentum_flux_missing_column df_tau freq_30T "U_m_s" "V_m_s" "w" 1.2
             (or_introl HU)).
  vm_compute. reflexivity.
Defined.

Lemma tau_series_lookup (u v w : string) (freq : positive) (rho : R)
    (df : DataFrame) (i : nat) (bk : Z) (x : cell) :
  tau_series u v w freq rho df !! i = Some (bk, x) ↔
  time_bins freq (map fst (complete_triples u v w df)) !! i = Some bk
  ∧ x = tau_of rho (bucket freq bk (complete_triples u v w df)).
Proof.
  unfold tau_series. cbv zeta. rewrite lookup_map.
  destruct (time_bins freq (map fst (complete_triples u v w df)) !! i) as [t|]; cbn.
  - split; [intros [= -> ->]; by split|]. by intros [[= ->] ->].
  - split; [discriminate|]. by intros [[=] _].
Qed.

(** The momentum flux is a magnitude: with [rho >= 0] no value is
    negative. *)
Theorem momentum_flux_nonneg
    (df : DataFrame) (freq : positive) (u_col v_col w_col : string) (rho : R) :
  NoDup [u_col; v_col; w_col] →
  u_col ∈ columns df → v_col ∈ columns df → w_col ∈ columns df → (0 <= rho)%R →
  ∃ tau,
    momentum_flux df freq u_col v_col w_col rho = Ok tau
    ∧ ∀ i t x, sdata tau !! i = Some (t, Some x) → (0 <= x)%R.
Proof.
  intros _ Hu Hv Hw Hr. eexists. split; [by apply momentum_flux_eq|]. rewrite sdata_flux_object.
  intros i t x [_ Hx]%tau_series_lookup. unfold tau_of in Hx.
  destruct (pop_cov _) as [a|]; [|discriminate Hx].
  destruct (pop_cov _) as [b|]; [|discriminate Hx].
  injection Hx as ->. apply Rmult_le_pos; [exact Hr|apply sqrt_pos].
Qed.

Lemma momentum_flux_nonneg_scenario :
  NoDup ["u"; "v"; "w"] ∧
  "u" ∈ columns df_tau ∧ "v" ∈ columns df_tau ∧ "w" ∈ columns df_tau ∧ (0 <= 1.2)%R ∧
  ∃ tau,
    momentum_flux df_tau freq_30T "u" "v" "w" 1.2 = Ok tau
    ∧ ∀ i t x, sdata tau !! i = Some (t, Some x) → (0 <= x)%R.
Proof.
  assert (Hu : "u" ∈ columns df_tau) by (cbn; repeat constructor).
  assert (Hv : "v" ∈ columns df_tau) by (cbn; repeat constructor).
  assert (Hw : "w" ∈ columns df_tau) by (cbn; repeat constructor).
  assert (Hr : (0 <= 1.2)%R) by lra.
  assert (Hd : NoDup ["u"; "v"; "w"]) by (apply (bool_decide_eq_true_1 _); reflexivity).
  repeat (split; [assumption|]).
  exact (momentum_flux_nonneg df_tau freq_30T "u" "v" "w" 1.2 Hd Hu Hv Hw Hr).
Defined.

Lemma triple_of_swap (u v w : string) (r : Z * gmap string R) :
  triple_of v u w r
  = (fun p : Z * (R * R * R) => (p.1, swap_uv p.2)) <$> triple_of u v w r.
Proof. unfold triple_of. by destruct (r.2 !! u), (r.2 !! v), (r.2 !! w). Qed.

Lemma complete_triples_swap (u v w : string) (df : DataFrame) :
  complete_triples v u w df
  = map (fun p : Z * (R * R * R) => (p.1, swap_uv p.2)) (complete_triples u v w df).
Proof.
  unfold complete_triples. induction (rows df) as [|r rs IH]; [reflexivity|].
  cbn [omap list_omap]. rewrite triple_of_swap.
  destruct (triple_of u v w r); cbn; by rewrite IH.
Qed.

Lemma tau_of_swap (rho : R) (ss : list (R * R * R)) :
  tau_of rho (map swap_uv ss) = tau_of rho ss.
Proof.
  unfold tau_of. rewrite !map_map.
  change (map (fun x => uw_of (swap_uv x)) ss) with (map vw_of ss).
  change (map (fun x => vw_of (swap_uv x)) ss) with (map uw_of ss).
  destruct (pop_cov (map vw_of ss)) as [b|], (pop_cov (map uw_of ss)) as [a|];
    try reflexivity.
  do 3 f_equal. apply Rplus_comm.
Qed.

(** Exchanging the two horizontal components does not change the momentum
    flux, on any table that has the three (different) columns. *)
Theorem momentum_flux_uv_symmetric
    (df : DataFrame) (freq : positive) (u_col v_col w_col : string) (rho : R) :
  NoDup [u_col; v_col; w_col] →
  u_col ∈ columns df → v_col ∈ columns df → w_col ∈ columns df →
  ∃ tau,
    momentum_flux df freq u_col v_col w_col rho = Ok tau
    ∧ momentum_flux df freq v_col u_col w_col rho = Ok tau.
Proof.
  intros _ Hu Hv Hw. eexists. split; [by apply momentum_flux_eq|].
  rewrite (momentum_flux_eq df freq v_col u_col w_col rho Hv Hu Hw). do 2 f_equal.
  unfold tau_series. cbv zeta.
  rewrite (complete_triples_swap u_col v_col w_col), map_map. cbn [fst].
  apply map_ext. intros t. by rewrite bucket_map, tau_of_swap.
Qed.

Lemma momentum_flux_uv_symmetric_scenario :
  NoDup ["u"; "v"; "w"] ∧
  "u" ∈ columns df_gap ∧ "v" ∈ columns df_gap ∧ "w" ∈ columns df_gap ∧
  ∃ tau,
    momentum_flux df_gap freq_30T "u" "v" "w" 1.2 = Ok tau
    ∧ momentum_flux df_gap freq_30T "v" "u" "w" 1.2 = Ok tau.
Proof.
  assert (Hu : "u" ∈ columns df_gap) by (cbn; repeat constructor).
  assert (Hv : "v" ∈ columns df_gap) by (cbn; repeat constructor).
  assert (Hw : "w" ∈ columns df_gap) by (cbn; repeat constructor).
  assert (Hd : NoDup ["u"; "v"; "w"]) by (apply (bool_decide_eq_true_1 _); reflexivity).
  repeat (split; [assumption|]).
  exact (momentum_flux_uv_symmetric df_gap freq_30T "u" "v" "w" 1.2 Hd Hu Hv Hw).
Defined.

(** ** ecflux: which errors and which names *)

Lemma covariance_flux_raises (df : DataFrame) (a b : string) (freq : positive)
    (k : R) (e : exn) :
  covariance_flux df a b freq k = Raise e → ∃ keys, e = KeyError keys.
Proof.
  destruct (present_or_not2 df a b) as [[Ha Hb]|H].
  - by rewrite (covariance_flux_eq df a b freq k Ha Hb).
  - rewrite (covariance_flux_absent df a b freq k H). intros [= <-]. by eexists.
Qed.

Lemma momentum_flux_raises (df : DataFrame) (freq : positive) (u v w : string)
    (rho : R) (e : exn) :
  momentum_flux df freq u v w rho = Raise e → ∃ keys, e = KeyError keys.
Proof.
  destruct (decide (u ∈ columns df)) as [Hu|Hu];
    [|rewrite (momentum_flux_absent df freq u v w rho (or_introl Hu));
      intros [= <-]; by eexists].
  destruct (decide (v ∈ columns df)) as [Hv|Hv];
    [|rewrite (momentum_flux_absent df freq u v w rho (or_intror (or_introl Hv)));
      intros [= <-]; by eexists].
  destruct (decide (w ∈ columns df)) as [Hw|Hw];
    [|rewrite (momentum_flux_absent df freq u v w rho (or_intror (or_intror Hw)));
      intros [= <-]; by eexists].
  by rewrite (momentum_flux_eq df freq u v w rho Hu Hv Hw).
Qed.

Lemma ecflux_route_other
    (raw_df : DataFrame) (w : string) (scalar : option string) (flux : string)
    (freq : positive) (rho cp Lv : R) (kwargs : gmap string string) :
  ¬ supported_flux flux →
  ecflux raw_df w scalar flux freq rho cp Lv kwargs
  = Raise (ValueError ("Unknown flux type: " +:+ upper flux
                       +:+ ". Use 'H', 'L'/'LE', or 'Tau'")).
Proof.
  unfold supported_flux, heat_selector, ecflux. intros Hn. cbv zeta.
  destruct (decide (upper flux = "H")) as [E|_].
  { exfalso. apply Hn. left. left. by apply (upper_lower flux "H"). }
  destruct (decide (upper flux ∈ ["L"; "LE"])) as [E|_].
  { exfalso. apply Hn. left. right.
    apply elem_of_cons in E as [E|E]; [left; by apply (upper_lower flux "L")|].
    apply list_elem_of_singleton in E. right. by apply (upper_lower flux "LE"). }
  destruct (decide (upper flux = "TAU")) as [E|_]; [|reflexivity].
  exfalso. apply Hn. right. by apply (upper_lower flux "Tau").
Qed.

Lemma KeyError_not_unsupported (keys : list string) : ¬ UnsupportedFluxType (KeyError keys).
Proof. intros [f [=]]. Qed.

Lemma sname_set_name (name : string) (o : PandasObject) :
  sname (set_name name o) = Some name.
Proof. by destruct o. Qed.

Lemma bind_rename_raises (name : string) (m : result PandasObject) (e : exn) :
  (f ← m; mret (set_name name f)) = Raise e → m = Raise e.
Proof. destruct m; [discriminate|]. by intros [= ->]. Qed.

(** [ecflux] raises the unknown-flux-type error if and only if the selector
    is none of [H], [L], [LE] and [Tau] up to letter case. *)
Theorem ecflux_unsupported_iff
    (raw_df : DataFrame) (w : string) (scalar : option string) (flux : string)
    (freq : positive) (rho cp Lv : R) (kwargs : gmap string string) :
  (∃ e, ecflux raw_df w scalar flux freq rho cp Lv kwargs = Raise e
        ∧ UnsupportedFluxType e)
  ↔ ¬ supported_flux flux.
Proof.
  split.
  - intros (e & E & Hu) [[H|H]|H].
    + rewrite (ecflux_route_H _ _ _ _ _ _ _ _ _ H) in E. destruct scalar as [s|].
      * apply bind_rename_raises, covariance_flux_raises in E as [keys ->].
        by apply KeyError_not_unsupported in Hu.
      * injection E as <-. destruct Hu as [f Hf]. discriminate Hf.
    + rewrite (ecflux_route_L _ _ _ _ _ _ _ _ _ H) in E. destruct scalar as [s|].
      * apply bind_rename_raises, covariance_flux_raises in E as [keys ->].
        by apply KeyError_not_unsupported in Hu.
      * injection E as <-. destruct Hu as [f Hf]. discriminate Hf.
    + rewrite (ecflux_route_Tau _ _ _ _ _ _ _ _ _ H) in E.
      apply momentum_flux_raises in E as [keys ->].
      by apply KeyError_not_unsupported in Hu.
  - intros Hn. eexists. split; [by apply ecflux_route_other|]. by eexists.
Qed.

(** Whatever [ecflux] returns carries one of the three unit-bearing names;
    the name ["{scalar}_flux"] of [covariance_flux] never gets out. *)
Theorem ecflux_result_name
    (raw_df : DataFrame) (w : string) (scalar : option string) (flux : string)
    (freq : positive) (rho cp Lv : R) (kwargs : gmap string string)
    (s : PandasObject) :
  ecflux raw_df w scalar flux freq rho cp Lv kwargs = Ok s →
  (ci_eq flux "H" ∧ sname s = Some "H_W_per_m2")
  ∨ ((ci_eq flux "L" ∨ ci_eq flux "LE") ∧ sname s = Some "LE_W_per_m2")
  ∨ (ci_eq flux "Tau" ∧ sname s = Some "tau_N_per_m2").
Proof.
  unfold ecflux. cbv zeta.
  destruct (decide (upper flux = "H")) as [E|_].
  { apply (upper_lower flux "H") in E. destruct scalar as [sc|]; [|discriminate].
    unfold _sensible_heat_flux. cbv zeta.
    destruct (covariance_flux _ _ _ _ _); [|discriminate].
    intros [= <-]. left. split; [exact E|apply sname_set_name]. }
  destruct (decide (upper flux ∈ ["L"; "LE"])) as [E|_].
  { assert (ci_eq flux "L" ∨ ci_eq flux "LE") as Hci.
    { apply elem_of_cons in E as [E|E]; [left; by apply (upper_lower flux "L")|].
      apply list_elem_of_singleton in E. right. by apply (upper_lower flux "LE"). }
    destruct scalar as [sc|]; [|discriminate].
    unfold _latent_heat_flux. cbv zeta.
    destruct (covariance_flux _ _ _ _ _); [|discriminate].
    intros [= <-]. right. left. split; [exact Hci|apply sname_set_name]. }
  destruct (decide (upper flux = "TAU")) as [E|_]; [|discriminate].
  apply (upper_lower flux "Tau") in E.
  unfold _momentum_flux.
  destruct (select _ _); [|discriminate]. cbn [mbind result_bind].
  destruct (apply _ _); [|discriminate].
  intros [= <-]. right. right. split; [exact E|apply sname_set_name].
Qed.

Lemma ecflux_result_name_scenario :
  ecflux df_scenario4 "w" (Some "T") "h" freq_30T 1 1 2500000 ∅
  = Ok (mkSeries (Some "H_W_per_m2") [(0%Z, Some 1.25%R)])
  ∧ ((ci_eq "h" "H" ∧ Some "H_W_per_m2" = Some "H_W_per_m2")
     ∨ ((ci_eq "h" "L" ∨ ci_eq "h" "LE") ∧ Some "H_W_per_m2" = Some "LE_W_per_m2")
     ∨ (ci_eq "h" "Tau" ∧ Some "H_W_per_m2" = Some "tau_N_per_m2")).
Proof.
  assert (E : ecflux df_scenario4 "w" (Some "T") "h" freq_30T 1 1 2500000 ∅
              = Ok (mkSeries (Some "H_W_per_m2") [(0%Z, Some 1.25%R)])).
  { rewrite (ecflux_route_H _ _ _ _ _ _ _ _ _ (eq_refl : ci_eq "h" "H")).
    unfold _sensible_heat_flux. cbv zeta.
    rewrite (covariance_flux_eq df_scenario4 "w" "T" freq_30T (1 * 1))
      by (cbn; repeat constructor).
    assert (Ev : ∃ x, covariance_series "w" "T" freq_30T (1 * 1) df_scenario4
                      = [(0%Z, Some x)] ∧ x = 1.25%R).
    { eexists. split; [vm_compute; reflexivity|]. lra. }
    destruct Ev as (x & -> & ->). reflexivity. }
  split; [exact E|].
  exact (ecflux_result_name df_scenario4 "w" (Some "T") "h" freq_30T 1 1 2500000 ∅ _ E).
Defined.

(** ** tke: window sizes that give no window, and missing columns *)

(** [window_size = 0] makes [range] raise; a negative [window_size] gives
    an empty range, so [tke] silently returns two empty lists.  Neither
    depends on the table or on the column names. *)
Theorem tke_nonpositive_window
    (raw_df : DataFrame) (window_size : Z) (u v w : string) :
  (window_size = 0%Z →
     tke raw_df window_size u v w
     = Raise (ValueError "range() arg 3 must not be zero"))
  ∧ ((window_size < 0)%Z → tke raw_df window_size u v w = Ok ([], [])).
Proof.
  unfold tke, range0. split; intros H.
  - by destruct (decide (window_size = 0)%Z).
  - destruct (decide (window_size = 0)%Z); [lia|].
    destruct (decide (0 < window_size)%Z); [lia|]. reflexivity.
Qed.

Lemma tke_nonpositive_window_scenario :
  (0%Z = 0%Z ∧ tke df_tke 0 "u" "v" "w"
               = Raise (ValueError "range() arg 3 must not be zero"))
  ∧ ((-4 < 0)%Z ∧ tke df_tke (-4) "u" "v" "w" = Ok ([], [])).
Proof.
  split.
  - split; [reflexivity|].
    exact (proj1 (tke_nonpositive_window df_tke 0 "u" "v" "w") eq_refl).
  - assert (H : (-4 < 0)%Z) by lia. split; [exact H|].
    exact (proj2 (tke_nonpositive_window df_tke (-4) "u" "v" "w") H).
Defined.

Lemma tke_loop_skip (raw_df : DataFrame) (k : Z) (u v w : string)
    (starts : list Z) (acc : list cell * list Z) :
  (len raw_df < k)%Z → (0 <= k)%Z →
  tke_loop raw_df k u v w starts acc = Ok acc.
Proof.
  intros Hlt Hk. induction starts as [|i starts IH]; [reflexivity|].
  cbn [tke_loop].
  destruct (decide (len (iloc raw_df i (i + k)) < k)%Z) as [_|N]; [exact IH|].
  exfalso. apply N. unfold len, iloc in *. cbn [rows].
  rewrite length_take, length_drop. lia.
Qed.

(** A table shorter than one window gives two empty lists, and the columns
    are never looked up: no error even if [u], [v] or [w] is not a column. *)
Theorem tke_short_table
    (raw_df : DataFrame) (window_size : Z) (u v w : string) :
  (len raw_df < window_size)%Z →
  tke raw_df window_size u v w = Ok ([], []).
Proof.
  intros H. unfold tke, range0.
  assert (0 <= len raw_df)%Z by (unfold len; lia).
  destruct (decide (window_size = 0)%Z); [lia|].
  destruct (decide (0 < window_size)%Z); [|lia].
  cbn [mbind result_bind]. apply tke_loop_skip; lia.
Qed.

Lemma tke_short_table_scenario :
  (len df_no_v < 4)%Z ∧ tke df_no_v 4 "u" "v" "w" = Ok ([], []).
Proof.
  assert (H : (len df_no_v < 4)%Z) by (vm_compute; reflexivity).
  split; [exact H|]. exact (tke_short_table df_no_v 4 "u" "v" "w" H).
Defined.

Lemma range0_first (N k : Z) :
  (1 <= k <= N)%Z → ∃ rest, range0 N k = Ok (0%Z :: rest).
Proof.
  intros H. unfold range0.
  destruct (decide (k = 0)%Z); [lia|]. destruct (decide (0 < k)%Z); [|lia].
  assert (1 <= (N + k - 1) `div` k)%Z as Hc.
  { apply Z.div_le_lower_bound; lia. }
  destruct (Z.to_nat ((N + k - 1) `div` k)) as [|m] eqn:E; [lia|].
  cbn [seq map]. by eexists.
Qed.

(** With at least one full window, a column that is not in the table makes
    [tke] raise the [KeyError] of the first of [u], [v], [w] that is
    absent. *)
Theorem tke_missing_column
    (raw_df : DataFrame) (window_size : Z) (u v w : string)
    (c : string) (others : list string) :
  (1 <= window_size <= len raw_df)%Z →
  filter (fun c => c ∉ columns raw_df) [u; v; w] = c :: others →
  tke raw_df window_size u v w = Raise (KeyError [c]).
Proof.
  intros Hk Hf. unfold tke.
  destruct (range0_first (len raw_df) window_size Hk) as [rest ->].
  cbn [mbind result_bind tke_loop].
  destruct (decide (len (iloc raw_df 0 (0 + window_size)) < window_size)%Z) as [Hlt|_].
  { exfalso. unfold len, iloc in *. cbn [rows] in Hlt.
    rewrite length_take, length_drop in Hlt. lia. }
  unfold getitem, iloc. cbn [columns rows].
  rewrite !filter_cons, filter_nil in Hf.
  destruct (decide (u ∈ columns raw_df)) as [Hu|Hu].
  - destruct (decide (u ∉ columns raw_df)); [contradiction|].
    cbn [mbind result_bind].
    destruct (decide (v ∈ columns raw_df)) as [Hv|Hv].
    + destruct (decide (v ∉ columns raw_df)); [contradiction|].
      cbn [mbind result_bind].
      destruct (decide (w ∈ columns raw_df)) as [Hw|Hw].
      * destruct (decide (w ∉ columns raw_df)); [contradiction|discriminate Hf].
      * destruct (decide (w ∉ columns raw_df)); [|contradiction].
        by injection Hf as <- _.
    + destruct (decide (v ∉ columns raw_df)); [|contradiction].
      by injection Hf as <- _.
  - destruct (decide (u ∉ columns raw_df)); [|contradiction].
    by injection Hf as <- _.
Qed.

Lemma tke_missing_column_scenario :
  (1 <= 2 <= len df_no_v)%Z
  ∧ filter (fun c => c ∉ columns df_no_v) ["u"; "v"; "w"] = ["v"]
  ∧ tke df_no_v 2 "u" "v" "w" = Raise (KeyError ["v"]).
Proof.
  assert (Hk : (1 <= 2 <= len df_no_v)%Z) by (vm_compute; split; discriminate).
  assert (Hf : filter (fun c => c ∉ columns df_no_v) ["u"; "v"; "w"] = ["v"])
    by (vm_compute; reflexivity).
  split; [exact Hk|]. split; [exact Hf|].
  exact (tke_missing_column df_no_v 2 "u" "v" "w" "v" [] Hk Hf).
Defined.

(** ** tke: values *)

Lemma sample_var_short (xs : list R) : length xs ≤ 1 → sample_var xs = nan.
Proof. intros H. unfold sample_var. by destruct (decide (length xs ≤ 1)). Qed.

Lemma notna_length (s : list cell) : length (notna s) ≤ length s.
Proof.
  induction s as [|[x|] s IH]; [reflexivity| |].
  - change (notna (Some x :: s)) with (x :: notna s). cbn. lia.
  - change (notna (None :: s)) with (notna s). cbn. lia.
Qed.

Lemma window_tke_short (u v w : string) (win : list (Z * gmap string R)) :
  length win ≤ 1 → window_tke u v w win = nan.
Proof.
  intros H. unfold window_tke. rewrite (sample_var_short (fluct (notna (column u win)))).
  - reflexivity.
  - unfold fluct, column. rewrite length_map.
    pose proof (notna_length (map (row_cell u) win)) as Hn.
    rewrite length_map in Hn. lia.
Qed.

Lemma map_const_repeat {A B} (c : B) (l : list A) :
  map (fun _ => c) l = repeat c (length l).
Proof. induction l as [|x l IH]; [reflexivity|]. cbn. by rewrite IH. Qed.

Lemma map_lookup_seq {A} (d : A) (l : list A) :
  map (fun j => default d (l !! j)) (seq 0 (length l)) = l.
Proof.
  apply list_eq. intros i. rewrite lookup_map.
  destruct (decide (i < length l)) as [Hi|Hi].
  - rewrite lookup_seq_lt by exact Hi. cbn.
    destruct (lookup_lt_is_Some_2 l i Hi) as [x ->]. reflexivity.
  - rewrite (lookup_ge_None_2 l i) by lia.
    rewrite (lookup_ge_None_2 (seq 0 (length l)) i); [reflexivity|].
    rewrite length_seq. lia.
Qed.

(** With [window_size = 1] every row is a window of its own, the sample
    variance (divisor [n - 1 = 0]) is undefined, and [tke] returns NaN for
    every row, keyed by the row's own timestamp. *)
Theorem tke_window_size_one (raw_df : DataFrame) (u v w : string) :
  u ∈ columns raw_df → v ∈ columns raw_df → w ∈ columns raw_df →
  tke raw_df 1 u v w
  = Ok (repeat nan (length (rows raw_df)), df_index raw_df).
Proof.
  intros Hu Hv Hw.
  rewrite (tke_eq raw_df 1 u v w Hu Hv Hw) by lia. cbv zeta.
  change (Z.to_nat 1) with 1.
  rewrite (midpoints_total raw_df 1) by lia. rewrite !Nat.div_1_r.
  f_equal. f_equal.
  - transitivity (map (fun _ : nat => nan) (seq 0 (length (rows raw_df)))).
    + apply map_ext. intros j.
      rewrite tke_of_window_spec. apply window_tke_short.
      unfold window_rows. rewrite length_take. lia.
    + by rewrite map_const_repeat, length_seq.
  - transitivity (map (fun j => default 0%Z (df_index raw_df !! j))
                      (seq 0 (length (df_index raw_df)))).
    + replace (length (df_index raw_df)) with (length (rows raw_df))
        by (unfold df_index; by rewrite length_map).
      apply map_ext. intros j. do 2 f_equal. change (1 / 2) with 0. lia.
    + apply map_lookup_seq.
Qed.

Lemma tke_window_size_one_scenario :
  "u" ∈ columns df_gap ∧ "v" ∈ columns df_gap ∧ "w" ∈ columns df_gap
  ∧ tke df_gap 1 "u" "v" "w"
    = Ok ([nan; nan; nan], [0%Z; 3600000000000%Z; 3601000000000%Z]).
Proof.
  assert (Hu : "u" ∈ columns df_gap) by (cbn; repeat constructor).
  assert (Hv : "v" ∈ columns df_gap) by (cbn; repeat constructor).
  assert (Hw : "w" ∈ columns df_gap) by (cbn; repeat constructor).
  repeat (split; [assumption|]).
  exact (tke_window_size_one df_gap "u" "v" "w" Hu Hv Hw).
Defined.

Lemma sample_var_nonneg (xs : list R) (x : R) :
  sample_var xs = Some x → (0 <= x)%R.
Proof.
  unfold sample_var. destruct (decide (length xs ≤ 1)) as [|Hn]; [discriminate|].
  intros [= <-]. apply Rmult_le_pos.
  - apply sum_R_nonneg, Forall_forall. intros y _.
    apply (Rle_0_sqr (y - arith_mean xs)).
  - left. apply Rinv_0_lt_compat, lt_0_INR. lia.
Qed.

(** A turbulent kinetic energy is never negative. *)
Theorem tke_nonneg
    (raw_df : DataFrame) (window_size : Z) (u v w : string) :
  u ∈ columns raw_df → v ∈ columns raw_df → w ∈ columns raw_df →
  (1 <= window_size)%Z →
  ∃ tke_list time_midpoints,
    tke raw_df window_size u v w = Ok (tke_list, time_midpoints)
    ∧ ∀ i x, tke_list !! i = Some (Some x) → (0 <= x)%R.
Proof.
  intros Hu Hv Hw Hk. do 2 eexists. split; [by apply tke_eq|].
  intros i x. rewrite lookup_map.
  destruct (seq 0 _ !! i) as [j|]; [|discriminate].
  cbn [fmap option_fmap option_map].
  rewrite tke_of_window_spec. unfold window_tke.
  destruct (sample_var _) as [a|] eqn:Ea; [|discriminate].
  destruct (sample_var _) as [b|] eqn:Eb in |- *; [|discriminate].
  destruct (sample_var _) as [c|] eqn:Ec in |- *; [|discriminate].
  intros [= <-].
  apply sample_var_nonneg in Ea, Eb, Ec. lra.
Qed.

Lemma tke_nonneg_scenario :
  "u" ∈ columns df_tke ∧ "v" ∈ columns df_tke ∧ "w" ∈ columns df_tke ∧ (1 <= 4)%Z ∧
  ∃ tke_list time_midpoints,
    tke df_tke 4 "u" "v" "w" = Ok (tke_list, time_midpoints)
    ∧ ∀ i x, tke_list !! i = Some (Some x) → (0 <= x)%R.
Proof.
  assert (Hu : "u" ∈ columns df_tke) by (cbn; repeat constructor).
  assert (Hv : "v" ∈ columns df_tke) by (cbn; repeat constructor).
  assert (Hw : "w" ∈ columns df_tke) by (cbn; repeat constructor).
  assert (Hk : (1 <= 4)%Z) by lia.
  repeat (split; [assumption|]).
  exact (tke_nonneg df_tke 4 "u" "v" "w" Hu Hv Hw Hk).
Defined.

(** ** fluctuations: default columns, first missing column *)

Lemma fluctuations_result (df : DataFrame) (cols : list string) :
  (∀ c, c ∈ cols → c ∈ columns df) →
  ∃ df_prime,
    fluctuations df (Some cols) = Ok df_prime
    ∧ df_index df_prime = df_index df
    ∧ (∀ name, name ∈ columns df_prime ↔ ∃ c, c ∈ cols ∧ name = prime c)
    ∧ ∀ c, c ∈ cols →
        getitem df_prime (prime c)
        = Ok (map (fluctuation_of (column c (rows df))) (column c (rows df))).
Proof.
  intros Hall. unfold fluctuations. fold (empty_frame df).
  assert (Hidx : df_index (empty_frame df) = df_index df).
  { unfold df_index, empty_frame. cbn [rows]. by rewrite map_map. }
  rewrite (fluctuations_loop_ok df cols _ Hall).
  eexists. split; [reflexivity|]. split; [by apply fold_index|]. split.
  - intros name. rewrite fold_columns. cbn [columns empty_frame]. split.
    + intros [H|H]; [by apply elem_of_nil in H|exact H].
    + intros H. by right.
  - intros c Hc. unfold prime. rewrite fold_getitem by exact Hidx.
    destruct (decide (c ∈ cols)) as [_|?]; [|contradiction].
    unfold fluctuation_series. by rewrite series_fluctuation.
Qed.

(** Called without a column list, [fluctuations] takes every column of the
    table: it cannot fail, and the result has one [_prime] column for each
    column of the table, on the same index. *)
Theorem fluctuations_default_columns (df : DataFrame) :
  ∃ df_prime,
    fluctuations df None = Ok df_prime
    ∧ df_index df_prime = df_index df
    ∧ (∀ name, name ∈ columns df_prime ↔ ∃ c, c ∈ columns df ∧ name = c +:+ "_prime")
    ∧ ∀ c, c ∈ columns df →
        getitem df_prime (c +:+ "_prime")
        = Ok (map (fluctuation_of (column c (rows df))) (column c (rows df))).
Proof.
  destruct (fluctuations_result df (columns df)) as (df_prime & E & H); [done|].
  exists df_prime. split; [exact E|exact H].
Qed.

Lemma fluctuations_loop_first_missing (df : DataFrame) (before after : list string)
    (c : string) (acc : DataFrame) :
  (∀ b, b ∈ before → b ∈ columns df) → c ∉ columns df →
  fluctuations_loop df (before ++ c :: after) acc
  = Raise (ValueError ("Column '" +:+ c +:+ "' not found in DataFrame")).
Proof.
  intros Hb Hc. revert acc. induction before as [|b before IH]; intros acc.
  - cbn [app fluctuations_loop]. by destruct (decide (c ∉ columns df)).
  - cbn [app fluctuations_loop].
    assert (Hin : b ∈ columns df) by (apply Hb; constructor).
    destruct (decide (b ∉ columns df)); [contradiction|].
    unfold getitem. destruct (decide (b ∈ columns df)); [|contradiction].
    cbn [mbind result_bind]. apply IH. intros b' Hb'. apply Hb. by constructor.
Qed.

(** The error of [fluctuations] names the first requested column, in request
    order, that is not in the table; later absent names are not reported. *)
Theorem fluctuations_first_missing
    (df : DataFrame) (before after : list string) (c : string) :
  (∀ b, b ∈ before → b ∈ columns df) → c ∉ columns df →
  fluctuations df (Some (before ++ c :: after))
  = Raise (ValueError ("Column '" +:+ c +:+ "' not found in DataFrame")).
Proof. intros Hb Hc. unfold fluctuations. by apply fluctuations_loop_first_missing. Qed.

Lemma fluctuations_first_missing_scenario :
  (∀ b, b ∈ ["w"] → b ∈ columns df_scenario4) ∧ ("q" ∉ columns df_scenario4)
  ∧ fluctuations df_scenario4 (Some ["w"; "q"; "T"; "r"])
    = Raise (ValueError "Column 'q' not found in DataFrame").
Proof.
  assert (Hb : ∀ b, b ∈ ["w"] → b ∈ columns df_scenario4).
  { intros b ->%list_elem_of_singleton. cbn. repeat constructor. }
  assert (Hq : "q" ∉ columns df_scenario4)
    by (apply (bool_decide_eq_false_1 _); vm_compute; reflexivity).
  split; [exact Hb|]. split; [exact Hq|].
  exact (fluctuations_first_missing df_scenario4 ["w"] ["T"; "r"] "q" Hb Hq).
Defined.


(** ** covariance_flux and the legacy wrapper when a complete row exists *)

Lemma time_bins_ne (freq : positive) (ax : list Z) :
  ax ≠ [] → time_bins freq ax ≠ [].
Proof.
  destruct ax as [|t ts]; [done|]. intros _ E.
  destruct (time_bins_cover freq (t :: ts) t) as (i & b & Hi & _); [constructor|].
  rewrite E in Hi. discriminate Hi.
Qed.

Lemma covariance_series_ne (a b : string) (freq : positive) (k : R) (df : DataFrame) :
  complete_pairs a b df ≠ [] → covariance_series a b freq k df ≠ [].
Proof.
  intros Hne E. unfold covariance_series in E. cbv zeta in E.
  apply fmap_nil_inv in E. revert E. apply time_bins_ne.
  by destruct (complete_pairs a b df).
Qed.

Lemma flux_object_ne (name : string) (attr : option string) (data : list (Z * cell)) :
  data ≠ [] → flux_object name attr data = mkSeries (Some name) data.
Proof. by destruct data. Qed.

(** With both columns present and at least one row in which both values
    are present, [covariance_flux] returns the series named
    ["{scalar_var}_flux"] that has one entry per time bucket of the rows
    left after dropping every row where either column is missing; the value
    of a bucket is [scale_factor] times the population covariance (divisor
    [n], no Bessel correction) of its samples about the bucket means, NaN
    for a bucket with no sample. *)
Theorem covariance_flux_population_covariance
    (df : DataFrame) (vertical_var scalar_var : string) (freq : positive)
    (scale_factor : R) :
  vertical_var ∈ columns df →
  scalar_var ∈ columns df →
  let ps := complete_pairs vertical_var scalar_var df in
  ps ≠ [] →
  covariance_flux df vertical_var scalar_var freq scale_factor
  = Ok (mkSeries (Some (scalar_var +:+ "_flux"))
          (map (fun t => (t, scaled scale_factor (pop_cov (bucket freq t ps))))
               (time_bins freq (map fst ps)))).
Proof.
  intros Ha Hb ps Hne.
  rewrite (covariance_flux_eq df vertical_var scalar_var freq scale_factor Ha Hb).
  rewrite flux_object_ne by (by apply covariance_series_ne). reflexivity.
Qed.

(** The four-row scenario: one bucket, [scale_factor = 1], covariance
    [1.25]. *)
Lemma covariance_flux_scenario4 :
  "w" ∈ columns df_scenario4 ∧ "T" ∈ columns df_scenario4
  ∧ complete_pairs "w" "T" df_scenario4 ≠ []
  ∧ covariance_flux df_scenario4 "w" "T" freq_30T 1
    = Ok (mkSeries (Some "T_flux") [(0%Z, Some 1.25%R)]).
Proof.
  assert (Hw : "w" ∈ columns df_scenario4) by (cbn; repeat constructor).
  assert (HT : "T" ∈ columns df_scenario4) by (cbn; repeat constructor).
  assert (Hne : complete_pairs "w" "T" df_scenario4 ≠ [])
    by (vm_compute; discriminate).
  repeat (split; [assumption|]).
  rewrite (covariance_flux_population_covariance df_scenario4 "w" "T" freq_30T 1
             Hw HT Hne).
  assert (E : ∃ v, covariance_series "w" "T" freq_30T 1 df_scenario4 = [(0%Z, Some v)]
                   ∧ v = 1.25%R).
  { eexists. split; [vm_compute; reflexivity|]. lra. }
  destruct E as (v & E & ->). unfold covariance_series in E. cbv zeta. by rewrite E.
Defined.

(** With both columns present and at least one row in which both values
    are present, [sensible_heat_flux] and [ecflux] with [flux='H'] return
    series with the same per-window entries, those of [covariance_flux]
    scaled by [rho * cp]; only the names differ, ["{var_col}_flux"] against
    ["H_W_per_m2"]. *)
Theorem sensible_heat_flux_legacy_agrees
    (df : DataFrame) (freq : positive) (var_col wind_col : string)
    (rho cp Lv : R) (kwargs : gmap string string) :
  wind_col ∈ columns df →
  var_col ∈ columns df →
  complete_pairs wind_col var_col df ≠ [] →
  ∃ entries,
    sensible_heat_flux df freq var_col wind_col rho cp
    = Ok (mkSeries (Some (var_col +:+ "_flux")) entries)
    ∧ ecflux df wind_col (Some var_col) "H" freq rho cp Lv kwargs
      = Ok (mkSeries (Some "H_W_per_m2") entries)
    ∧ covariance_flux df wind_col var_col freq (rho * cp)
      = Ok (mkSeries (Some (var_col +:+ "_flux")) entries)
    ∧ var_col +:+ "_flux" ≠ "H_W_per_m2".
Proof.
  intros Hw Hv Hne. rewrite ecflux_H_legacy. unfold sensible_heat_flux. cbv zeta.
  rewrite (covariance_flux_eq df wind_col var_col freq (rho * cp) Hw Hv).
  rewrite flux_object_ne by (by apply covariance_series_ne).
  eexists. repeat (split; [reflexivity|]). apply flux_name_not_H.
Qed.

Lemma sensible_heat_flux_legacy_scenario4 :
  "w" ∈ columns df_scenario4 ∧ "T" ∈ columns df_scenario4
  ∧ complete_pairs "w" "T" df_scenario4 ≠ []
  ∧ ∃ entries,
      sensible_heat_flux df_scenario4 freq_30T "T" "w" 1.2 1005
      = Ok (mkSeries (Some ("T" +:+ "_flux")) entries)
      ∧ ecflux df_scenario4 "w" (Some "T") "H" freq_30T 1.2 1005 2500000 ∅
        = Ok (mkSeries (Some "H_W_per_m2") entries)
      ∧ covariance_flux df_scenario4 "w" "T" freq_30T (1.2 * 1005)
        = Ok (mkSeries (Some ("T" +:+ "_flux")) entries)
      ∧ "T" +:+ "_flux" ≠ "H_W_per_m2".
Proof.
  assert (Hw : "w" ∈ columns df_scenario4) by (cbn; repeat constructor).
  assert (HT : "T" ∈ columns df_scenario4) by (cbn; repeat constructor).
  assert (Hne : complete_pairs "w" "T" df_scenario4 ≠ [])
    by (vm_compute; discriminate).
  repeat (split; [assumption|]).
  exact (sensible_heat_flux_legacy_agrees df_scenario4 freq_30T "T" "w"
           1.2 1005 2500000 ∅ Hw HT Hne).
Defined.


(** ** A bucket with a single sample, infinities included *)

Lemma Ext_select_present (df : Ext.DataFrame) (a b : string) :
  a ∈ Ext.columns df → b ∈ Ext.columns df →
  Ext.select df [a; b] = Ok (Ext.mkDataFrame [a; b] (Ext.rows df)).
Proof.
  intros Ha Hb. unfold Ext.select.
  assert (E : filter (fun c => c ∉ Ext.columns df) [a; b] = []).
  { rewrite filter_cons_False by (intros H; by apply H).
    rewrite filter_cons_False by (intros H; by apply H). reflexivity. }
  by rewrite E.
Qed.

Lemma Ext_apply_map (f : Ext.DataFrame → result Ext.xcell) (G : Z → Ext.DataFrame)
    (g : Z → Ext.xcell) (bins : list Z) :
  (∀ b, f (G b) = Ok (g b)) →
  Ext.apply f (map (fun b => (b, G b)) bins)
  = Ok (Ext.wrap_applied_output (map (fun b => (b, g b)) bins)).
Proof.
  intros H. unfold Ext.apply.
  assert (E : mapM (fun kg : Z * Ext.DataFrame => v ← f kg.2; mret (kg.1, v))
                   (map (fun b => (b, G b)) bins)
              = Ok (map (fun b => (b, g b)) bins)).
  { induction bins as [|b bins IH]; [reflexivity|].
    cbn. rewrite H. cbn. rewrite IH. reflexivity. }
  rewrite E. reflexivity.
Qed.

Lemma Ext_getitem_present (a b c : string) (rs : list (Z * gmap string Ext.xval)) :
  c ∈ [a; b] →
  Ext.getitem (Ext.mkDataFrame [a; b] rs) c = Ok (map (Ext.row_cell c) rs).
Proof.
  intros H. unfold Ext.getitem. cbn [Ext.columns Ext.rows].
  by destruct (decide (c ∈ [a; b])).
Qed.

(** The value of a window, as [compute_window_covariance] computes it. *)
Lemma Ext_window_value (a b : string) (rs : list (Z * gmap string Ext.xval)) :
  Ext.compute_window_covariance a b (Ext.mkDataFrame [a; b] rs)
  = Ok (let w := map (Ext.row_cell a) rs in
        let c := map (Ext.row_cell b) rs in
        Ext.series_mean
          (Ext.series_mul (Ext.series_sub_scalar w (Ext.series_mean w))
                          (Ext.series_sub_scalar c (Ext.series_mean c)))).
Proof.
  unfold Ext.compute_window_covariance.
  rewrite !Ext_getitem_present by (repeat constructor). reflexivity.
Qed.

Lemma Ext_flux_lookup (name : string) (k : R) (values : list (Z * Ext.xcell))
    (i : nat) (t : Z) (v : Ext.xcell) :
  values !! i = Some (t, v) →
  Ext.sdata (Ext.mul_scalar (Ext.set_name name (Ext.wrap_applied_output values)) k) !! i
  = Some (t, Ext.cell_mul v (Some (Ext.Fin k))).
Proof.
  intros H. destruct values as [|v0 values]; [discriminate H|].
  cbn [Ext.wrap_applied_output Ext.set_name Ext.mul_scalar Ext.sdata].
  rewrite lookup_map, H. reflexivity.
Qed.

Lemma Ext_covariance_flux_lookup
    (df : Ext.DataFrame) (a b : string) (freq : positive) (k : R) (i : nat) (t : Z) :
  a ∈ Ext.columns df → b ∈ Ext.columns df →
  time_bins freq (map fst (Ext.kept a b df)) !! i = Some t →
  ∃ flux,
    Ext.covariance_flux df a b freq k = Ok flux
    ∧ Ext.sdata flux !! i
      = Some (t,
              let rs := List.filter (Ext.in_bin freq t) (Ext.kept a b df) in
              let w := map (Ext.row_cell a) rs in
              let c := map (Ext.row_cell b) rs in
              Ext.cell_mul
                (Ext.series_mean
                   (Ext.series_mul (Ext.series_sub_scalar w (Ext.series_mean w))
                                   (Ext.series_sub_scalar c (Ext.series_mean c))))
                (Some (Ext.Fin k))).
Proof.
  intros Ha Hb Ht. unfold Ext.covariance_flux.
  rewrite (Ext_select_present df a b Ha Hb).
  cbn [mbind result_bind]. unfold Ext.groupby, Ext.dropna, Ext.df_index.
  cbn [Ext.columns Ext.rows]. fold (Ext.kept a b df).
  erewrite Ext_apply_map; [|intros t'; apply Ext_window_value].
  cbn [mbind result_bind mret result_ret]. eexists. split; [reflexivity|].
  apply Ext_flux_lookup. by rewrite lookup_map, Ht.
Qed.

(** C10, amended.  With both columns present, an output bucket that holds
    exactly one row once the rows with a missing value are dropped, and
    whose row has finite values in both columns, has the value 0 (not NaN),
    for every finite scale factor; the other rows of the table may hold
    anything. *)
Theorem covariance_flux_single_finite_row_bucket
    (df : Ext.DataFrame) (vertical_var scalar_var : string) (freq : positive)
    (scale_factor : R) (i : nat) (t : Z) (r : Z * gmap string Ext.xval) (x y : R) :
  vertical_var ∈ Ext.columns df →
  scalar_var ∈ Ext.columns df →
  time_bins freq (map fst (Ext.kept vertical_var scalar_var df)) !! i = Some t →
  List.filter (Ext.in_bin freq t) (Ext.kept vertical_var scalar_var df) = [r] →
  Ext.row_cell vertical_var r = Some (Ext.Fin x) →
  Ext.row_cell scalar_var r = Some (Ext.Fin y) →
  ∃ flux,
    Ext.covariance_flux df vertical_var scalar_var freq scale_factor = Ok flux
    ∧ Ext.sdata flux !! i = Some (t, Some (Ext.Fin 0)).
Proof.
  intros Ha Hb Ht Hr Hx Hy.
  destruct (Ext_covariance_flux_lookup df vertical_var scalar_var freq scale_factor
              i t Ha Hb Ht) as (flux & E & Hi).
  exists flux. split; [exact E|]. etransitivity; [exact Hi|]. cbv zeta. rewrite Hr.
  cbn [map]. rewrite Hx, Hy. cbn.
  assert (E0 : (((x - (x + 0) / 1) * (y - (y + 0) / 1) + 0) / 1 * scale_factor = 0)%R)
    by field.
  by rewrite E0.
Qed.

Lemma covariance_flux_single_finite_row_scenario :
  "w" ∈ Ext.columns Ext.df_fin_inf ∧ "T" ∈ Ext.columns Ext.df_fin_inf
  ∧ time_bins freq_30T (map fst (Ext.kept "w" "T" Ext.df_fin_inf)) !! 0 = Some 0%Z
  ∧ List.filter (Ext.in_bin freq_30T 0) (Ext.kept "w" "T" Ext.df_fin_inf)
    = [Ext.mkrow 0 [("w", Ext.Fin 3); ("T", Ext.Fin 20)]]
  ∧ Ext.row_cell "w" (Ext.mkrow 0 [("w", Ext.Fin 3); ("T", Ext.Fin 20)])
    = Some (Ext.Fin 3)
  ∧ Ext.row_cell "T" (Ext.mkrow 0 [("w", Ext.Fin 3); ("T", Ext.Fin 20)])
    = Some (Ext.Fin 20)
  ∧ ∃ flux,
      Ext.covariance_flux Ext.df_fin_inf "w" "T" freq_30T 1206 = Ok flux
      ∧ Ext.sdata flux !! 0 = Some (0%Z, Some (Ext.Fin 0)).
Proof.
  assert (Hw : "w" ∈ Ext.columns Ext.df_fin_inf) by (cbn; repeat constructor).
  assert (HT : "T" ∈ Ext.columns Ext.df_fin_inf) by (cbn; repeat constructor).
  assert (Ht : time_bins freq_30T (map fst (Ext.kept "w" "T" Ext.df_fin_inf)) !! 0
               = Some 0%Z) by (vm_compute; reflexivity).
  assert (Hr : List.filter (Ext.in_bin freq_30T 0) (Ext.kept "w" "T" Ext.df_fin_inf)
               = [Ext.mkrow 0 [("w", Ext.Fin 3); ("T", Ext.Fin 20)]])
    by (vm_compute; reflexivity).
  assert (Hx : Ext.row_cell "w" (Ext.mkrow 0 [("w", Ext.Fin 3); ("T", Ext.Fin 20)])
               = Some (Ext.Fin 3)) by (vm_compute; reflexivity).
  assert (Hy : Ext.row_cell "T" (Ext.mkrow 0 [("w", Ext.Fin 3); ("T", Ext.Fin 20)])
               = Some (Ext.Fin 20)) by (vm_compute; reflexivity).
  repeat (split; [assumption|]).
  exact (covariance_flux_single_finite_row_bucket Ext.df_fin_inf "w" "T" freq_30T 1206
           0 0 _ 3 20 Hw HT Ht Hr Hx Hy).
Defined.

(** C10 as stated fails on a single row with an infinite vertical wind: the
    row is kept by [dropna] and is alone in its bucket, its fluctuation is
    [inf - inf], and the value of the bucket is NaN, not 0. *)
Lemma covariance_flux_single_infinite_row :
  "w" ∈ Ext.columns Ext.df_inf ∧ "T" ∈ Ext.columns Ext.df_inf
  ∧ time_bins freq_30T (map fst (Ext.kept "w" "T" Ext.df_inf)) !! 0 = Some 0%Z
  ∧ length (List.filter (Ext.in_bin freq_30T 0) (Ext.kept "w" "T" Ext.df_inf)) = 1
  ∧ ∃ flux,
      Ext.covariance_flux Ext.df_inf "w" "T" freq_30T 1 = Ok flux
      ∧ Ext.sdata flux !! 0 = Some (0%Z, None)
      ∧ Ext.sdata flux !! 0 ≠ Some (0%Z, Some (Ext.Fin 0)).
Proof.
  assert (Hw : "w" ∈ Ext.columns Ext.df_inf) by (cbn; repeat constructor).
  assert (HT : "T" ∈ Ext.columns Ext.df_inf) by (cbn; repeat constructor).
  assert (Ht : time_bins freq_30T (map fst (Ext.kept "w" "T" Ext.df_inf)) !! 0
               = Some 0%Z) by (vm_compute; reflexivity).
  repeat (split; [assumption|]).
  split; [vm_compute; reflexivity|].
  destruct (Ext_covariance_flux_lookup Ext.df_inf "w" "T" freq_30T 1 0 0 Hw HT Ht)
    as (flux & E & Hi).
  exists flux. split; [exact E|].
  assert (Hn : Ext.sdata flux !! 0 = Some (0%Z, None)).
  { etransitivity; [exact Hi|]. vm_compute. reflexivity. }
  split; [exact Hn|]. rewrite Hn. discriminate.
Qed.
